(** * pdns-data-manager: zones and records of a PowerDNS server

    A shallow embedding of [pdns-data-manager.py].  The script reads a list of
    zones from a configuration document, validates it, and then creates or
    deletes the zones and their records through the HTTP API of a PowerDNS
    server.

    The HTTP server is the environment: an arbitrary state type [Server] with
    a transition [respond] that answers one request.  A call of the [requests]
    library either gets a status code back or raises (connection failure,
    timeout).  Every function of the script that talks to the server, logs or
    prints is a computation in the monad [M], which threads the server,
    collects the events in the order the script causes them and propagates
    Python exceptions. *)

From Stdlib Require Import String List ZArith Bool Lia.
Import ListNotations.
Local Open Scope string_scope.
Local Open Scope list_scope.

(** ** Data *)

(** The payloads handed to [json.dumps]. *)
#[local] Set Warnings "-register-all".
Inductive json : Type :=
| JBool (b : bool)
| JNum (n : Z)
| JStr (s : string)
| JList (items : list json)
| JObj (fields : list (string * json)).

Fixpoint assoc (k : string) (fields : list (string * json)) : option json :=
  match fields with
  | [] => None
  | (k', v) :: rest => if String.eqb k k' then Some v else assoc k rest
  end.

(** [payload[k]] for a payload that is an object. *)
Definition json_get (k : string) (j : json) : option json :=
  match j with
  | JObj fields => assoc k fields
  | _ => None
  end.

(** One entry of [zone['records']]. *)
Record RecordSpec : Type := mkRecord {
  record_name : string;
  record_type : string;
  record_ttl : Z;
  record_disabled : bool;
  record_content : list string
}.

(** One entry of the [zones] list. *)
Record ZoneSpec : Type := mkZone {
  zone_name : string;
  zone_kind : string;
  zone_nameservers : list string;
  zone_masters : list string;
  zone_records : list RecordSpec
}.

(** The value found under the key ['zones'] of the configuration document:
    the key may be absent, present with a null value, or hold a list. *)
Inductive zones_value : Type :=
| ZonesAbsent
| ZonesNull
| ZonesList (zs : list ZoneSpec).

Record Config : Type := mkConfig { cfg_zones : zones_value }.

(** The parsed command line, as far as [main] reads it. *)
Record Args : Type := mkArgs {
  protocol : string;
  host : string;
  port : string;
  key : string;
  operation : string
}.

(** ** HTTP, exceptions and events *)

Inductive method : Type := GET | POST | PATCH | DELETE.

Definition Headers : Type := list (string * string).

Record request : Type := mkRequest {
  req_method : method;
  req_url : string;
  req_data : option json;
  req_headers : Headers
}.

Inductive net_failure : Type := ConnectionError | ReadTimeout.

(** What a call of [requests] comes back with. *)
Inductive reply : Type :=
| Status (status_code : Z)
| NoReply (why : net_failure).

Inductive exn : Type :=
| HTTPError (status_code : Z)
| RequestException (why : net_failure)
| Exception (msg : string).

Inductive level : Type := DEBUG | INFO | ERROR.

Inductive event : Type :=
| Http (rq : request) (rp : reply)
| Log (lvl : level) (msg : string)
| LogError (e : exn)
| Stdout (msg : string).

Inductive outcome (A : Type) : Type :=
| Return (a : A)
| Raise (e : exn).
Arguments Return {A} a.
Arguments Raise {A} e.

(** ** Pure parts of the script *)

Definition read_zones (cfg : Config) : list ZoneSpec :=
  match cfg_zones cfg with
  | ZonesAbsent => []
  | ZonesNull => []
  | ZonesList zs => zs
  end.

Definition len {A : Type} (l : list A) : Z := Z.of_nat (length l).

(** The body of the loop of [validate_data]. *)
Definition validate_zone (zone : ZoneSpec) : outcome unit :=
  match
    (if String.eqb (zone_kind zone) "MASTER"
     then if (len (zone_nameservers zone) <? 1)%Z
          then Raise (Exception "A nameserver is required to create a MASTER zone")
          else Return tt
     else Return tt)
  with
  | Raise e => Raise e
  | Return _ =>
      if String.eqb (zone_kind zone) "SLAVE"
      then if (len (zone_masters zone) <? 1)%Z
           then Raise (Exception "A master is required to create SLAVE zone")
           else Return tt
      else Return tt
  end.

Fixpoint validate_zones (zs : list ZoneSpec) : outcome unit :=
  match zs with
  | [] => Return tt
  | zone :: rest =>
      match validate_zone zone with
      | Raise e => Raise e
      | Return _ => validate_zones rest
      end
  end.

Definition validate_data (data : Config) : outcome unit :=
  validate_zones (read_zones data).

(** The payload [create_zone] builds before it probes the zone. *)
Definition zone_payload (zone : ZoneSpec) : json :=
  if String.eqb (zone_kind zone) "MASTER" || String.eqb (zone_kind zone) "NATIVE"
  then JObj [ ("name", JStr (zone_name zone));
              ("kind", JStr (zone_kind zone));
              ("masters", JList []);
              ("nameservers", JList (map JStr (zone_nameservers zone))) ]
  else JObj [ ("name", JStr (zone_name zone));
              ("kind", JStr (zone_kind zone));
              ("masters", JList (map JStr (zone_masters zone)));
              ("nameservers", JList []) ].

(** The inner loop of [create_records]: one [records.append] per content. *)
Definition rr_entry (record : RecordSpec) (content : string) : json :=
  JObj [ ("content", JStr content); ("disabled", JBool (record_disabled record)) ].

Definition rr_records (record : RecordSpec) : list json :=
  fold_left (fun records content => records ++ [rr_entry record content])
            (record_content record) [].

Definition record_payload (record : RecordSpec) : json :=
  JObj [ ("rrsets",
          JList [ JObj [ ("name", JStr (record_name record));
                         ("type", JStr (record_type record));
                         ("ttl", JNum (record_ttl record));
                         ("changetype", JStr "REPLACE");
                         ("records", JList (rr_records record)) ] ]) ].

Definition delete_record_payload (record : RecordSpec) : json :=
  JObj [ ("rrsets",
          JList [ JObj [ ("name", JStr (record_name record));
                         ("type", JStr (record_type record));
                         ("changetype", JStr "DELETE") ] ]) ].

Definition delete_zone_payload (zone : ZoneSpec) : json :=
  JObj [ ("name", JStr (zone_name zone)) ].

(** [args.protocol + "://%s:%s/api/v1/servers/localhost/zones" % (host, port)] *)
Definition zones_url (args : Args) : string :=
  protocol args ++ "://" ++ host args ++ ":" ++ port args
    ++ "/api/v1/servers/localhost/zones".

(** [Response.raise_for_status] of the requests library raises [HTTPError]
    for the client and server error codes, 400 to 599, and for no other. *)
Definition is_error_status (c : Z) : bool := (400 <=? c)%Z && (c <? 600)%Z.

(** ** The script against a server *)

Section Program.

Variable Server : Type.
Variable respond : Server -> request -> reply * Server.

Definition M (A : Type) : Type := Server -> outcome A * Server * list event.

Definition ret {A : Type} (a : A) : M A := fun s => (Return a, s, []).

Definition raise {A : Type} (e : exn) : M A := fun s => (Raise e, s, []).

Definition bind {A B : Type} (m : M A) (k : A -> M B) : M B :=
  fun s =>
    match m s with
    | (Return a, s1, t1) =>
        match k a s1 with (o, s2, t2) => (o, s2, t1 ++ t2) end
    | (Raise e, s1, t1) => (Raise e, s1, t1)
    end.

(** [try: body / except Exception as error: handler / else: orelse] *)
Definition try_except_else {A B : Type}
    (body : M A) (handler : exn -> M B) (orelse : A -> M B) : M B :=
  fun s =>
    match body s with
    | (Return a, s1, t1) =>
        match orelse a s1 with (o, s2, t2) => (o, s2, t1 ++ t2) end
    | (Raise e, s1, t1) =>
        match handler e s1 with (o, s2, t2) => (o, s2, t1 ++ t2) end
    end.

Definition emit (ev : event) : M unit := fun s => (Return tt, s, [ev]).

Definition lift {A : Type} (o : outcome A) : M A := fun s => (o, s, []).

Notation "x <- m ;; k" := (bind m (fun x => k))
  (at level 61, m at next level, right associativity).
Notation "m ;; k" := (bind m (fun _ => k))
  (at level 61, right associativity).

Definition logger (lvl : level) (msg : string) : M unit := emit (Log lvl msg).

Definition print (msg : string) : M unit := emit (Stdout msg).

(** One call of [requests.get/post/patch/delete]: the status code of the
    response, or the exception of a request that got none. *)
Definition send (rq : request) : M Z :=
  fun s =>
    match respond s rq with
    | (Status c, s') => (Return c, s', [Http rq (Status c)])
    | (NoReply w, s') => (Raise (RequestException w), s', [Http rq (NoReply w)])
    end.

Definition requests_get (url : string) (headers : Headers) : M Z :=
  send (mkRequest GET url None headers).
Definition requests_post (url : string) (data : json) (headers : Headers) : M Z :=
  send (mkRequest POST url (Some data) headers).
Definition requests_patch (url : string) (data : json) (headers : Headers) : M Z :=
  send (mkRequest PATCH url (Some data) headers).
Definition requests_delete (url : string) (data : json) (headers : Headers) : M Z :=
  send (mkRequest DELETE url (Some data) headers).

Definition raise_for_status (response : Z) : M unit :=
  if is_error_status response then raise (HTTPError response) else ret tt.

(** [for x in l: body x] *)
Fixpoint for_each {A : Type} (l : list A) (body : A -> M unit) : M unit :=
  match l with
  | [] => ret tt
  | x :: rest => body x ;; for_each rest body
  end.

(** A [for] loop that updates one local variable. *)
Fixpoint for_fold {A S : Type} (l : list A) (body : A -> S -> M S) (acc : S) : M S :=
  match l with
  | [] => ret acc
  | x :: rest => acc' <- body x acc ;; for_fold rest body acc'
  end.

Definition zone_exists (url : string) (headers : Headers) : M bool :=
  logger DEBUG ("Sending GET request to " ++ url) ;;
  try_except_else
    (response <- requests_get url headers ;; raise_for_status response)
    (fun _ => ret false)
    (fun _ => ret true).

Definition create_zone (url : string) (headers : Headers) (zone : ZoneSpec) : M bool :=
  let payload := zone_payload zone in
  exists_ <- zone_exists (url ++ "/" ++ zone_name zone) headers ;;
  if negb exists_ then
    logger INFO ("Request to create Zone " ++ zone_name zone) ;;
    response <- requests_post url payload headers ;;
    if (response =? 201)%Z then
      logger INFO ("Successfully created zone " ++ zone_name zone) ;;
      ret true
    else
      logger INFO ("Failed to create zone " ++ zone_name zone) ;;
      ret false
  else ret true.

(** The body of the loop of [create_records]. *)
Definition create_record (url : string) (headers : Headers) (zone : ZoneSpec)
    (record : RecordSpec) : M unit :=
  let payload := record_payload record in
  try_except_else
    (logger INFO ("Sending request to create record " ++ record_name record) ;;
     response <- requests_patch (url ++ "/" ++ zone_name zone) payload headers ;;
     raise_for_status response)
    (fun error => emit (LogError error))
    (fun _ => logger INFO ("Successfully created/updated record " ++ record_name record)).

Definition create_records (url : string) (headers : Headers) (zone : ZoneSpec) : M unit :=
  for_each (zone_records zone) (create_record url headers zone).

(** The body of the loop of [create], on the local variable [err_count]. *)
Definition create_step (args : Args) (headers : Headers) (zone : ZoneSpec)
    (err_count : Z) : M Z :=
  let url := zones_url args in
  created <- create_zone url headers zone ;;
  if created then
    create_records url headers zone ;;
    ret err_count
  else
    logger ERROR ("Zone " ++ zone_name zone ++ " Creation failed. Skipping record creation") ;;
    ret (err_count + 1)%Z.

Definition create_loop (args : Args) (headers : Headers) (data : Config) : M Z :=
  for_fold (read_zones data) (create_step args headers) 0%Z.

Definition create (args : Args) (headers : Headers) (data : Config) : M unit :=
  err_count <- create_loop args headers data ;;
  if (err_count >? 0)%Z then raise (Exception "Create operation failed") else ret tt.

(** The body of the loop of [delete_records]. *)
Definition delete_record (url : string) (headers : Headers) (zone : ZoneSpec)
    (record : RecordSpec) : M unit :=
  let name := record_name record in
  let payload := delete_record_payload record in
  logger INFO ("Request to delete record  " ++ name) ;;
  exists_ <- zone_exists url headers ;;
  if exists_ then
    try_except_else
      (response <- requests_patch url payload headers ;; raise_for_status response)
      (fun error => emit (LogError error))
      (fun _ => logger INFO ("Successful deleted DNS record " ++ name))
  else
    logger INFO ("Zone " ++ zone_name zone ++ " for the record " ++ name
                   ++ " requested to be deleted does not exists").

Definition delete_records (url : string) (headers : Headers) (zone : ZoneSpec) : M unit :=
  for_each (zone_records zone) (delete_record url headers zone).

Definition delete_zone (url : string) (headers : Headers) (zone : ZoneSpec) : M unit :=
  let payload := delete_zone_payload zone in
  logger INFO ("Request to delete Zone " ++ zone_name zone) ;;
  exists_ <- zone_exists url headers ;;
  if exists_ then
    try_except_else
      (response <- requests_delete url payload headers ;; raise_for_status response)
      (fun error => emit (LogError error))
      (fun _ => logger INFO ("Successful deleted zone " ++ zone_name zone))
  else
    logger INFO ("Zone " ++ zone_name zone ++ " requested to be deleted does not exists").

Definition delete (args : Args) (headers : Headers) (data : Config) : M unit :=
  for_each (read_zones data)
    (fun zone =>
       let url := (zones_url args ++ "/" ++ zone_name zone)%string in
       delete_records url headers zone ;;
       delete_zone url headers zone).

(** [main] after the command line is parsed and the configuration file is
    loaded; [data] is [None] when the file holds no document. *)
Definition main (args : Args) (data : option Config) : M unit :=
  match data with
  | None => raise (Exception "No config settings loaded")
  | Some data =>
      lift (validate_data data) ;;
      let headers := [("X-API-Key", key args)] in
      (if String.eqb (operation args) "create" then
         try_except_else
           (create args headers data ;;
            let msg := "Create operation successful" in
            logger INFO msg ;; print msg)
           (fun _ =>
              let msg := "Create operation failed" in
              logger ERROR msg ;; print msg)
           (fun _ => ret tt)
       else ret tt) ;;
      (if String.eqb (operation args) "delete" then
         try_except_else
           (delete args headers data ;;
            let msg := "Delete operation successful" in
            logger INFO msg ;; print msg)
           (fun _ =>
              let msg := "Delete operation failed" in
              logger ERROR msg ;; print msg)
           (fun _ => ret tt)
       else ret tt)
  end.

End Program.

Arguments ret {Server A} a.
Arguments raise {Server A} e.
Arguments bind {Server A B} m k.
Arguments try_except_else {Server A B} body handler orelse.
Arguments emit {Server} ev.
Arguments lift {Server A} o.
Arguments logger {Server} lvl msg.
Arguments print {Server} msg.
Arguments for_each {Server A} l body.
Arguments for_fold {Server A S} l body acc.
Arguments raise_for_status {Server} response.
Arguments send {Server} respond rq.
Arguments requests_get {Server} respond url headers.
Arguments requests_post {Server} respond url data headers.
Arguments requests_patch {Server} respond url data headers.
Arguments requests_delete {Server} respond url data headers.
Arguments zone_exists {Server} respond url headers.
Arguments create_zone {Server} respond url headers zone.
Arguments create_record {Server} respond url headers zone record.
Arguments create_records {Server} respond url headers zone.
Arguments create_step {Server} respond args headers zone err_count.
Arguments create_loop {Server} respond args headers data.
Arguments create {Server} respond args headers data.
Arguments delete_record {Server} respond url headers zone record.
Arguments delete_records {Server} respond url headers zone.
Arguments delete_zone {Server} respond url headers zone.
Arguments delete {Server} respond args headers data.
Arguments main {Server} respond args data.

(** ** Concrete servers *)

(** A server that plays back a fixed list of replies, one per request, and
    is unreachable once the list is used up. *)
Definition play (script : list reply) (rq : request) : reply * list reply :=
  match script with
  | [] => (NoReply ConnectionError, [])
  | rp :: rest => (rp, rest)
  end.

(** A server that answers by the method of the request alone. *)
Definition by_method (get post patch delete : reply) (s : unit) (rq : request)
  : reply * unit :=
  (match req_method rq with
   | GET => get
   | POST => post
   | PATCH => patch
   | DELETE => delete
   end, s).

Definition args0 (op : string) : Args :=
  mkArgs "http" "127.0.0.1" "8081" "abcdef123456" op.

Definition rec_a : RecordSpec :=
  mkRecord "a.example." "A" 300 false ["1.2.3.4"; "5.6.7.8"].
Definition rec_mx : RecordSpec :=
  mkRecord "a.example." "MX" 300 true ["10 mail.a.example."].

Definition zone_a : ZoneSpec :=
  mkZone "a.example." "NATIVE" [] [] [rec_a].
Definition zone_b : ZoneSpec :=
  mkZone "b.example." "MASTER" ["ns1.b.example."] [] [rec_a; rec_mx].
Definition zone_c : ZoneSpec :=
  mkZone "c.example." "SLAVE" [] ["192.0.2.1"] [].

(** A "MASTER" zone without a nameserver. *)
Definition zone_m : ZoneSpec :=
  mkZone "m.example." "MASTER" [] ["192.0.2.1"] [rec_a].

(** A standalone zone with one address record. *)
Definition zone_e : ZoneSpec :=
  mkZone "a.example." "NATIVE" [] []
         [mkRecord "a.example." "A" 300 false ["10.0.0.1"]].

Definition cfg (zs : list ZoneSpec) : Config := mkConfig (ZonesList zs).

Definition headers0 : Headers := [("X-API-Key", "abcdef123456")].

(** Zone a is there already; the upsert of its record is refused. *)
Definition upsert_refused : list reply := [Status 200; Status 500].

(** Zone a is absent and its creation gets no reply; for zone b the server
    would have answered every call. *)
Definition post_unanswered : list reply :=
  [Status 404; NoReply ConnectionError;
   Status 404; Status 201; Status 204; Status 204].

(** Zone a is absent and its creation is refused; zone b is created and one
    of its two upserts is refused. *)
Definition first_zone_refused : list reply :=
  [Status 404; Status 500; Status 404; Status 201; Status 204; Status 500].

(** Every probe finds the zone and every deletion is refused. *)
Definition refuses_deletions : unit -> request -> reply * unit :=
  by_method (Status 200) (Status 201) (Status 500) (Status 503).

(** ** Observations on a run *)

(** The HTTP calls of a run, in order, each with what came back. *)
Fixpoint http_calls (t : list event) : list (request * reply) :=
  match t with
  | [] => []
  | Http rq rp :: rest => (rq, rp) :: http_calls rest
  | _ :: rest => http_calls rest
  end.

Definition requests_of (t : list event) : list request :=
  map fst (http_calls t).

(** What [print] wrote, in order. *)
Fixpoint printed (t : list event) : list string :=
  match t with
  | [] => []
  | Stdout msg :: rest => msg :: printed rest
  | _ :: rest => printed rest
  end.

(** What [logger.error] was called with: a message, or the exception of
    [logger.error(f'Error: {error}')]. *)
Fixpoint logged_errors (t : list event) : list (string + exn) :=
  match t with
  | [] => []
  | Log ERROR msg :: rest => inl msg :: logged_errors rest
  | LogError e :: rest => inr e :: logged_errors rest
  | _ :: rest => logged_errors rest
  end.

(** A zone creation that did not succeed: a POST that was not answered 201. *)
Definition failed_create (call : request * reply) : bool :=
  match req_method (fst call), snd call with
  | POST, Status c => negb (c =? 201)%Z
  | POST, NoReply _ => true
  | _, _ => false
  end.

Definition zone_failures (t : list event) : Z :=
  len (filter failed_create (http_calls t)).

(** A call that [raise_for_status] or [requests] itself turns into an
    exception. *)
Definition failed_reply (rp : reply) : bool :=
  match rp with
  | Status c => is_error_status c
  | NoReply _ => true
  end.

(** The exception such a call raises. *)
Definition exn_of (rp : reply) : exn :=
  match rp with
  | Status c => HTTPError c
  | NoReply w => RequestException w
  end.

Definition is_method (m : method) (rq : request) : bool :=
  match m, req_method rq with
  | GET, GET | POST, POST | PATCH, PATCH | DELETE, DELETE => true
  | _, _ => false
  end.

Definition probe_request (url : string) (headers : Headers) : request :=
  mkRequest GET url None headers.

Definition create_request (url : string) (headers : Headers) (zone : ZoneSpec)
  : request :=
  mkRequest POST url (Some (zone_payload zone)) headers.

Definition upsert_request (url : string) (headers : Headers) (zone : ZoneSpec)
    (record : RecordSpec) : request :=
  mkRequest PATCH (url ++ "/" ++ zone_name zone) (Some (record_payload record)) headers.

(** The events of a zone creation, after the probe found no zone. *)
Definition create_events (url : string) (headers : Headers) (zone : ZoneSpec)
    (rp : reply) : list event :=
  [Log INFO ("Request to create Zone " ++ zone_name zone);
   Http (create_request url headers zone) rp]
  ++ match rp with
     | Status c =>
         [Log INFO ((if (c =? 201)%Z then "Successfully created zone "
                     else "Failed to create zone ") ++ zone_name zone)]
     | NoReply _ => []
     end.

Definition create_result (rp : reply) : outcome bool :=
  match rp with
  | Status c => Return (c =? 201)%Z
  | NoReply w => Raise (RequestException w)
  end.

(** The changes of a run (every call but the GET probes) that were turned
    into an exception, each as that exception, in order. *)
Definition failed_change (call : request * reply) : bool :=
  negb (is_method GET (fst call)) && failed_reply (snd call).

Definition failed_changes (t : list event) : list (string + exn) :=
  map (fun call : request * reply => inr (exn_of (snd call)))
      (filter failed_change (http_calls t)).

(** A computation that returns without printing and whose error log is
    the list of its failed changes. *)
Definition best_effort {Server : Type} (m : M Server unit) : Prop :=
  forall s, exists s' t,
    m s = (Return tt, s', t) /\
    printed t = [] /\
    logged_errors t = failed_changes t.

(** The zones [validate_data] rejects. *)
Definition invalid_zone (zone : ZoneSpec) : Prop :=
  (zone_kind zone = "MASTER" /\ (len (zone_nameservers zone) < 1)%Z) \/
  (zone_kind zone = "SLAVE" /\ (len (zone_masters zone) < 1)%Z).

(** ** Logging setup *)

(** The options [setup_logging] reads off the parsed command line. *)
Record LogOptions : Type := mkLogOptions {
  quiet : bool;
  verbose : bool;
  logfile : option string
}.

(** [logging.WARN], [logging.DEBUG], [logging.INFO] and their names. *)
Definition logging_WARN : Z := 30.
Definition logging_DEBUG : Z := 10.
Definition logging_INFO : Z := 20.

Definition getLevelName (lvl : Z) : string :=
  if (lvl =? 30)%Z then "WARNING"
  else if (lvl =? 10)%Z then "DEBUG"
  else if (lvl =? 20)%Z then "INFO"
  else "Level".

Inductive Handler : Type :=
| RotatingFileHandler (filename : string) (maxBytes backupCount : Z)
| StreamHandler.

(** What the [except OSError] branch of [create_logger] writes to stderr. *)
Inductive stderr_note : Type :=
| ErrorLine
| Traceback.

(** The logger [create_logger] hands back: its level, the one handler it
    added, the format string of that handler, and what went to stderr. *)
Record Logger : Type := mkLogger {
  logger_level : string;
  logger_handler : Handler;
  logger_format : string;
  logger_stderr : option stderr_note
}.

Definition long_format : string :=
  "%(asctime)s - %(name)s - %(levelname)s - %(message)s".
Definition short_format : string := "%(levelname)s - %(message)s".

(** [create_logger]; [opens f] tells whether the file [f] can be opened, the
    constructor of [RotatingFileHandler] raises [OSError] when it cannot. *)
Definition create_logger (opens : string -> bool) (level : string)
    (logfile : option string) : Logger :=
  match logfile with
  | Some f =>
      if opens f then
        mkLogger level (RotatingFileHandler f (1048576 * 5) 5) long_format None
      else if negb (String.eqb level "DEBUG") then
        mkLogger level StreamHandler short_format (Some ErrorLine)
      else
        mkLogger level StreamHandler long_format (Some Traceback)
  | None =>
      if negb (String.eqb level "DEBUG") then
        mkLogger level StreamHandler short_format None
      else
        mkLogger level StreamHandler long_format None
  end.

Definition setup_logging (opens : string -> bool) (args : LogOptions) : Logger * Z :=
  let log_level :=
    if quiet args then logging_WARN
    else if verbose args then logging_DEBUG
    else logging_INFO in
  (create_logger opens (getLevelName log_level) (logfile args), log_level).

(** ** Requests of a run *)

Definition delete_record_request (url : string) (headers : Headers)
    (record : RecordSpec) : request :=
  mkRequest PATCH url (Some (delete_record_payload record)) headers.

Definition delete_zone_request (url : string) (headers : Headers)
    (zone : ZoneSpec) : request :=
  mkRequest DELETE url (Some (delete_zone_payload zone)) headers.

(** [<base>/<zoneName>] *)
Definition zone_url (args : Args) (zone : ZoneSpec) : string :=
  zones_url args ++ "/" ++ zone_name zone.

(** The probe and the creation request of a zone in the create path. *)
Definition zone_probe (args : Args) (headers : Headers) (zone : ZoneSpec) : request :=
  probe_request (zone_url args zone) headers.

Definition zone_creation (args : Args) (headers : Headers) (zone : ZoneSpec)
  : request :=
  create_request (zones_url args) headers zone.

(** The GET requests of a run, in order. *)
Definition probes (t : list event) : list request :=
  filter (is_method GET) (requests_of t).

(** Every request a computation sends satisfies [P], from any server state. *)
Definition sends {Server A : Type} (P : request -> Prop) (m : M Server A) : Prop :=
  forall s, Forall P (requests_of (snd (m s))).

(** The requests the create path may send for the zones of the document. *)
Definition create_target (args : Args) (headers : Headers) (zones : list ZoneSpec)
    (rq : request) : Prop :=
  exists zone,
    In zone zones /\
    (rq = probe_request (zone_url args zone) headers \/
     rq = create_request (zones_url args) headers zone \/
     exists record,
       In record (zone_records zone) /\
       rq = upsert_request (zones_url args) headers zone record).

(** The requests the delete path may send for the zones of the document. *)
Definition delete_target (args : Args) (headers : Headers) (zones : list ZoneSpec)
    (rq : request) : Prop :=
  exists zone,
    In zone zones /\
    (rq = probe_request (zone_url args zone) headers \/
     rq = delete_zone_request (zone_url args zone) headers zone \/
     exists record,
       In record (zone_records zone) /\
       rq = delete_record_request (zone_url args zone) headers record).

(** The requests of a create run in which every zone is found by its probe,
    and of one in which no zone is found and every creation succeeds. *)
Definition upserts_of (args : Args) (headers : Headers) (zone : ZoneSpec)
  : list request :=
  map (upsert_request (zones_url args) headers zone) (zone_records zone).

Definition rerun_requests (args : Args) (headers : Headers) (zones : list ZoneSpec)
  : list request :=
  flat_map (fun zone =>
              probe_request (zone_url args zone) headers
                :: upserts_of args headers zone) zones.

Definition fresh_requests (args : Args) (headers : Headers) (zones : list ZoneSpec)
  : list request :=
  flat_map (fun zone =>
              probe_request (zone_url args zone) headers
                :: create_request (zones_url args) headers zone
                :: upserts_of args headers zone) zones.

(** The probes of a delete run: one per record of a zone, then one more for
    the zone itself. *)
Definition delete_probes (args : Args) (headers : Headers) (zones : list ZoneSpec)
  : list request :=
  flat_map (fun zone =>
              repeat (probe_request (zone_url args zone) headers)
                     (S (length (zone_records zone)))) zones.

(** A computation that returns, whose probes are [ps], and that sends
    nothing else and logs no error whenever [H] holds. *)
Definition probing {Server : Type} (H : Prop) (m : M Server unit)
    (ps : list request) : Prop :=
  forall s, exists s' t,
    m s = (Return tt, s', t) /\
    probes t = ps /\
    printed t = [] /\
    (H -> requests_of t = ps /\ logged_errors t = []).

(** Every GET is answered with a failure: no reply, or a 4xx or 5xx. *)
Definition probes_fail {Server : Type}
    (respond : Server -> request -> reply * Server) : Prop :=
  forall s rq, req_method rq = GET -> failed_reply (fst (respond s rq)) = true.

(** Every GET is answered, and not with a 4xx or 5xx. *)
Definition probes_succeed {Server : Type}
    (respond : Server -> request -> reply * Server) : Prop :=
  forall s rq, req_method rq = GET -> failed_reply (fst (respond s rq)) = false.

(** Every POST is answered 201. *)
Definition creations_succeed {Server : Type}
    (respond : Server -> request -> reply * Server) : Prop :=
  forall s rq, req_method rq = POST -> fst (respond s rq) = Status 201.

(** No request gets a reply. *)
Definition never_replies {Server : Type}
    (respond : Server -> request -> reply * Server) : Prop :=
  forall s rq, exists w, fst (respond s rq) = NoReply w.

(** A server that is never reached. *)
Definition unreachable (s : unit) (rq : request) : reply * unit :=
  (NoReply ConnectionError, s).

(** Every probe finds its zone and every change is accepted. *)
Definition accepts_all : unit -> request -> reply * unit :=
  by_method (Status 200) (Status 201) (Status 204) (Status 204).

(** No probe finds its zone and every change is accepted. *)
Definition fresh_server : unit -> request -> reply * unit :=
  by_method (Status 404) (Status 201) (Status 204) (Status 204).

(** Unfolds the monad down to the calls of [respond]. *)
Ltac unfold_monad :=
  unfold logger, print, emit, lift, bind, try_except_else,
         requests_get, requests_post, requests_patch, requests_delete,
         send, raise_for_status, ret, raise.

(** ** Validation *)

Lemma validate_zone_raises (zone : ZoneSpec) :
  (exists e, validate_zone zone = Raise e) <-> invalid_zone zone.
Proof.
  unfold validate_zone, invalid_zone.
  destruct (String.eqb_spec (zone_kind zone) "MASTER") as [Hm | Hm];
    destruct (String.eqb_spec (zone_kind zone) "SLAVE") as [Hs | Hs];
    destruct (Z.ltb_spec (len (zone_nameservers zone)) 1);
    destruct (Z.ltb_spec (len (zone_masters zone)) 1);
    split; intros H';
    try (destruct H' as [e He]; discriminate He);
    try (destruct H' as [[Hk Hl] | [Hk Hl]]; try contradiction; try lia;
         rewrite Hk in *; discriminate);
    try (eexists; reflexivity);
    try (left; split; assumption);
    try (right; split; assumption).
Qed.

Lemma validate_zones_raises (zs : list ZoneSpec) :
  (exists e, validate_zones zs = Raise e) <-> Exists invalid_zone zs.
Proof.
  induction zs as [| zone rest IH]; simpl.
  - split; intros H.
    + destruct H as [e He]; discriminate He.
    + inversion H.
  - destruct (validate_zone zone) as [[] | e] eqn:Hz.
    + rewrite IH. split; intros H.
      * apply Exists_cons_tl; exact H.
      * inversion H as [? ? Hbad | ? ? Hrest]; subst; [| exact Hrest].
        apply validate_zone_raises in Hbad. destruct Hbad as [e He].
        rewrite Hz in He; discriminate He.
    + split; intros _.
      * apply Exists_cons_hd. apply validate_zone_raises. exists e; exact Hz.
      * exists e; reflexivity.
Qed.

Lemma validate_zones_app (before after : list ZoneSpec) :
  validate_zones (before ++ after) =
  match validate_zones before with
  | Raise e => Raise e
  | Return _ => validate_zones after
  end.
Proof.
  induction before as [| zone rest IH]; simpl.
  - reflexivity.
  - destruct (validate_zone zone); [exact IH | reflexivity].
Qed.

(** C10: a zone whose kind is neither "MASTER" nor "SLAVE" (so "NATIVE" and
    every unrecognised kind) goes through validation unchecked: the loop body
    accepts it whatever its nameservers and masters are, and anywhere in the
    zones list its presence does not change the verdict on the list. *)
Theorem validate_skips_other_kinds (zone : ZoneSpec) :
  zone_kind zone <> "MASTER" ->
  zone_kind zone <> "SLAVE" ->
  validate_zone zone = Return tt /\
  (forall nameservers masters records,
      validate_zone (mkZone (zone_name zone) (zone_kind zone)
                            nameservers masters records) = Return tt) /\
  (forall before after,
      validate_data (mkConfig (ZonesList (before ++ zone :: after))) =
      validate_data (mkConfig (ZonesList (before ++ after)))).
Proof.
  intros Hm Hs.
  assert (Hany : forall ns ms rs,
             validate_zone (mkZone (zone_name zone) (zone_kind zone) ns ms rs)
             = Return tt).
  { intros ns ms rs. unfold validate_zone; simpl.
    apply String.eqb_neq in Hm, Hs. rewrite Hm, Hs. reflexivity. }
  assert (Hz : validate_zone zone = Return tt).
  { destruct zone; apply Hany. }
  split; [exact Hz |]. split; [exact Hany |].
  intros before after. unfold validate_data, read_zones; simpl.
  rewrite !validate_zones_app. simpl. rewrite Hz. reflexivity.
Qed.

Lemma validate_skips_other_kinds_witness :
  validate_zone zone_a = Return tt /\
  validate_data (cfg ([zone_b] ++ zone_a :: [zone_c])) =
  validate_data (cfg ([zone_b] ++ [zone_c])).
Proof.
  destruct (validate_skips_other_kinds zone_a) as [Hz [_ Hl]].
  - discriminate.
  - discriminate.
  - split; [exact Hz | exact (Hl [zone_b] [zone_c])].
Defined.

(** ** Payloads *)

Lemma rr_records_map (record : RecordSpec) :
  rr_records record = map (rr_entry record) (record_content record).
Proof.
  unfold rr_records.
  assert (H : forall contents acc,
             fold_left (fun records content => records ++ [rr_entry record content])
                       contents acc
             = acc ++ map (rr_entry record) contents).
  { induction contents as [| c rest IH]; intros acc; simpl.
    - rewrite app_nil_r; reflexivity.
    - rewrite IH, <- app_assoc; reflexivity. }
  apply H.
Qed.

(** C6: the payload of a zone creation always has both keys.  For the kinds
    "MASTER" and "NATIVE" [masters] is the empty list and [nameservers] the
    zone's nameservers; for every other kind [nameservers] is the empty list
    and [masters] the zone's masters. *)
Theorem zone_payload_sides (zone : ZoneSpec) :
  json_get "name" (zone_payload zone) = Some (JStr (zone_name zone)) /\
  json_get "kind" (zone_payload zone) = Some (JStr (zone_kind zone)) /\
  (((zone_kind zone = "MASTER" \/ zone_kind zone = "NATIVE") /\
    json_get "masters" (zone_payload zone) = Some (JList []) /\
    json_get "nameservers" (zone_payload zone)
      = Some (JList (map JStr (zone_nameservers zone))))
   \/
   ((zone_kind zone <> "MASTER" /\ zone_kind zone <> "NATIVE") /\
    json_get "nameservers" (zone_payload zone) = Some (JList []) /\
    json_get "masters" (zone_payload zone)
      = Some (JList (map JStr (zone_masters zone))))).
Proof.
  unfold zone_payload.
  destruct (String.eqb_spec (zone_kind zone) "MASTER") as [Hm | Hm];
    destruct (String.eqb_spec (zone_kind zone) "NATIVE") as [Hn | Hn];
    simpl; repeat split; auto.
Qed.

(** ** Running the script *)

Section Properties.

Variable Server : Type.
Variable respond : Server -> request -> reply * Server.

(** The probe: one GET, its answer read off the reply, nothing raised. *)
Lemma zone_exists_run (url : string) (headers : Headers) (s : Server) :
  zone_exists respond url headers s =
  let rq := probe_request url headers in
  (Return (negb (failed_reply (fst (respond s rq)))),
   snd (respond s rq),
   [Log DEBUG ("Sending GET request to " ++ url); Http rq (fst (respond s rq))]).
Proof.
  unfold zone_exists, probe_request. unfold_monad. simpl.
  destruct (respond s _) as [[c | w] s']; simpl; [| reflexivity].
  destruct (is_error_status c); reflexivity.
Qed.

Lemma create_zone_run (url : string) (headers : Headers) (zone : ZoneSpec)
    (s : Server) :
  create_zone respond url headers zone s =
  match zone_exists respond (url ++ "/" ++ zone_name zone) headers s with
  | (Return true, s1, t1) => (Return true, s1, t1)
  | (Return false, s1, t1) =>
      let rq := create_request url headers zone in
      (create_result (fst (respond s1 rq)), snd (respond s1 rq),
       t1 ++ create_events url headers zone (fst (respond s1 rq)))
  | (Raise e, s1, t1) => (Raise e, s1, t1)
  end.
Proof.
  unfold create_zone. unfold bind at 1.
  destruct (zone_exists _ _ _ _) as [[[[|] | e] s1] t1]; simpl.
  - rewrite app_nil_r; reflexivity.
  - unfold create_events, create_request, create_result. unfold_monad. simpl.
    destruct (respond s1 _) as [[c | w] s2]; simpl; [| reflexivity].
    destruct (c =? 201)%Z; reflexivity.
  - reflexivity.
Qed.

Lemma create_record_run (url : string) (headers : Headers) (zone : ZoneSpec)
    (record : RecordSpec) (s : Server) :
  create_record respond url headers zone record s =
  let rq := upsert_request url headers zone record in
  let rp := fst (respond s rq) in
  (Return tt, snd (respond s rq),
   [Log INFO ("Sending request to create record " ++ record_name record);
    Http rq rp;
    if failed_reply rp then LogError (exn_of rp)
    else Log INFO ("Successfully created/updated record " ++ record_name record)]).
Proof.
  unfold create_record, upsert_request. unfold_monad. simpl.
  destruct (respond s _) as [[c | w] s']; simpl; [| reflexivity].
  destruct (is_error_status c); reflexivity.
Qed.

Lemma http_calls_app (t1 t2 : list event) :
  http_calls (t1 ++ t2) = http_calls t1 ++ http_calls t2.
Proof.
  induction t1 as [| ev t1 IH]; simpl; [reflexivity |].
  destruct ev; simpl; rewrite ?IH; reflexivity.
Qed.

Lemma printed_app (t1 t2 : list event) :
  printed (t1 ++ t2) = printed t1 ++ printed t2.
Proof.
  induction t1 as [| ev t1 IH]; simpl; [reflexivity |].
  destruct ev; simpl; rewrite ?IH; reflexivity.
Qed.

Lemma logged_errors_app (t1 t2 : list event) :
  logged_errors (t1 ++ t2) = logged_errors t1 ++ logged_errors t2.
Proof.
  induction t1 as [| ev t1 IH]; simpl; [reflexivity |].
  destruct ev as [? ? | [] ? | ? | ?]; simpl; rewrite ?IH; reflexivity.
Qed.

Lemma requests_of_app (t1 t2 : list event) :
  requests_of (t1 ++ t2) = requests_of t1 ++ requests_of t2.
Proof. unfold requests_of. rewrite http_calls_app, map_app. reflexivity. Qed.

Lemma zone_failures_app (t1 t2 : list event) :
  zone_failures (t1 ++ t2) = (zone_failures t1 + zone_failures t2)%Z.
Proof.
  unfold zone_failures, len.
  rewrite http_calls_app, filter_app, length_app. lia.
Qed.

Lemma zone_failures_nonneg (t : list event) : (0 <= zone_failures t)%Z.
Proof. unfold zone_failures, len. lia. Qed.

(** The records loop never raises, sends one upsert per record whatever
    the earlier ones were answered, creates no zone and prints nothing;
    it logs one error per failed upsert. *)
Lemma for_each_create_record (url : string) (headers : Headers) (zone : ZoneSpec)
    (records : list RecordSpec) (s : Server) :
  exists s' t,
    for_each records (create_record respond url headers zone) s = (Return tt, s', t) /\
    requests_of t = map (upsert_request url headers zone) records /\
    zone_failures t = 0%Z /\
    printed t = [] /\
    logged_errors t = failed_changes t.
Proof.
  revert s. induction records as [| record rest IH]; intros s; simpl.
  - exists s, []. repeat split; reflexivity.
  - unfold bind. rewrite create_record_run. cbv zeta.
    destruct (IH (snd (respond s (upsert_request url headers zone record))))
      as (s' & t & Hrun & Hreq & Hz & Hp & Hl).
    rewrite Hrun. eexists; eexists. split; [reflexivity |].
    unfold failed_changes, failed_change, requests_of, zone_failures in *.
    destruct (failed_reply (fst (respond s (upsert_request url headers zone record))))
      eqn:Hf;
      cbn [app http_calls printed logged_errors map filter fst snd negb andb
           failed_create is_method upsert_request req_method];
      rewrite ?Hf, Hreq, Hl; repeat split; assumption.
Qed.

(** One turn of the loop of [create]: the counter grows by the zone
    creations that failed in this turn, an exception leaves a failed
    creation behind, and nothing is printed. *)
Lemma create_step_count (args : Args) (headers : Headers) (zone : ZoneSpec)
    (n : Z) (s : Server) :
  forall o s' t,
    create_step respond args headers zone n s = (o, s', t) ->
    printed t = [] /\
    match o with
    | Return m => m = (n + zone_failures t)%Z
    | Raise _ => (0 < zone_failures t)%Z
    end.
Proof.
  intros o s' t. unfold create_step. unfold bind at 1.
  rewrite create_zone_run, zone_exists_run. cbv zeta.
  set (probe := probe_request _ headers).
  destruct (respond s probe) as [rp s1]. cbn [fst snd].
  destruct (failed_reply rp); cbn [negb].
  - set (rq := create_request _ headers zone).
    destruct (respond s1 rq) as [[c | w] s2]; cbn [fst snd create_result].
    + destruct (c =? 201)%Z eqn:Hc.
      * destruct (for_each_create_record (zones_url args) headers zone
                    (zone_records zone) s2) as (s3 & t3 & Hrun & _ & Hz & Hp & _).
        unfold bind, create_records. rewrite Hrun. unfold ret.
        intros H; injection H as <- <- <-; rewrite ?app_nil_r.
        unfold create_events, zone_failures, len, rq in *. cbn -[Z.eqb].
        rewrite Hc. cbn. split; [exact Hp | lia].
      * unfold_monad. intros H; injection H as <- <- <-; rewrite ?app_nil_r.
        unfold create_events, zone_failures, len, rq in *. cbn -[Z.eqb].
        rewrite Hc. cbn. split; [reflexivity | lia].
    + intros H; injection H as <- <- <-; rewrite ?app_nil_r.
      unfold create_events, zone_failures, len, rq in *. simpl.
      split; [reflexivity | lia].
  - destruct (for_each_create_record (zones_url args) headers zone
                (zone_records zone) s1) as (s3 & t3 & Hrun & _ & Hz & Hp & _).
    unfold bind, create_records. rewrite Hrun. unfold ret.
    intros H; injection H as <- <- <-; rewrite ?app_nil_r.
    unfold zone_failures, len in *. simpl. split; [exact Hp | lia].
Qed.

Lemma for_fold_create_step (args : Args) (headers : Headers)
    (zs : list ZoneSpec) :
  forall n s o s' t,
    for_fold zs (create_step respond args headers) n s = (o, s', t) ->
    printed t = [] /\
    match o with
    | Return m => m = (n + zone_failures t)%Z
    | Raise _ => (0 < zone_failures t)%Z
    end.
Proof.
  induction zs as [| zone rest IH]; intros n s o s' t; simpl.
  - unfold ret. intros H; injection H as <- <- <-.
    unfold zone_failures; cbn. split; [reflexivity | lia].
  - unfold bind.
    destruct (create_step respond args headers zone n s) as [[[m | e] s1] t1] eqn:Hstep;
      apply create_step_count in Hstep; destruct Hstep as [Hp1 Hc1].
    + destruct (for_fold rest _ m s1) as [[o2 s2] t2] eqn:Hrest.
      apply IH in Hrest. destruct Hrest as [Hp2 Hc2].
      intros H; injection H as <- <- <-.
      rewrite printed_app, zone_failures_app, Hp1, Hp2.
      split; [reflexivity |].
      destruct o2; [lia |]. pose proof (zone_failures_nonneg t1). lia.
    + intros H; injection H as <- <- <-. split; assumption.
Qed.

(** What [main] does once the configuration is valid and the operation is
    "create": it never raises, and prints one line decided by [create]. *)
Lemma main_create_run (args : Args) (data : Config) (s : Server) :
  operation args = "create" ->
  validate_data data = Return tt ->
  main respond args (Some data) s =
  match create respond args [("X-API-Key", key args)] data s with
  | (Return _, s1, t1) =>
      (Return tt, s1,
       t1 ++ [Log INFO "Create operation successful";
              Stdout "Create operation successful"])
  | (Raise _, s1, t1) =>
      (Return tt, s1,
       t1 ++ [Log ERROR "Create operation failed";
              Stdout "Create operation failed"])
  end.
Proof.
  intros Hop Hvalid. unfold main. rewrite Hop, Hvalid.
  change ("create" =? "create")%string with true.
  change ("create" =? "delete")%string with false.
  unfold lift, logger, print, emit, ret.
  unfold bind at 1 2. cbn [app]. unfold try_except_else.
  unfold bind at 1.
  destruct (create respond args _ data s) as [[[[] | e] s1] t1];
    unfold bind; cbn [app]; rewrite ?app_nil_r; reflexivity.
Qed.

(** C1: in a run of the create path [main] reports failure exactly when a
    zone creation failed; when the loop over the zones runs to its end the
    failure count it ends with is the number of failed zone creations and
    failure is reported exactly when that count is positive.  Failed
    record upserts are not zone failures and play no part. *)
Theorem create_reports_failure_iff_zone_failed
    (args : Args) (data : Config) (s : Server) :
  operation args = "create" ->
  validate_data data = Return tt ->
  exists s' t,
    main respond args (Some data) s = (Return tt, s', t) /\
    (printed t = ["Create operation failed"] <-> (0 < zone_failures t)%Z) /\
    (printed t = ["Create operation successful"] <-> zone_failures t = 0%Z) /\
    (forall err_count s1 t1,
        create_loop respond args [("X-API-Key", key args)] data s
          = (Return err_count, s1, t1) ->
        err_count = zone_failures t1 /\
        http_calls t = http_calls t1 /\
        (printed t = ["Create operation failed"] <-> (0 < err_count)%Z)).
Proof.
  intros Hop Hvalid. rewrite (main_create_run args data s Hop Hvalid).
  unfold create, bind.
  destruct (create_loop respond args _ data s) as [[[n | e] s1] t1] eqn:Hloop;
    pose proof Hloop as Hcount;
    apply for_fold_create_step in Hcount; destruct Hcount as [Hp Hn].
  - rewrite Z.add_0_l in Hn.
    destruct (Z.gtb_spec n 0) as [Hpos | Hzero]; unfold raise, ret;
      eexists; eexists; (split; [reflexivity |]);
      rewrite ?app_nil_r, printed_app, zone_failures_app, Hp, <- Hn;
      unfold zone_failures, len; cbn [app printed http_calls filter length Z.of_nat];
      pose proof (zone_failures_nonneg t1).
    + split; [| split].
      * split; [intros _; lia | reflexivity].
      * split; [discriminate | lia].
      * intros n' s1' t1' Heq; injection Heq as <- <- <-.
        rewrite http_calls_app, app_nil_r.
        repeat split; try assumption; lia.
    + split; [| split].
      * split; [discriminate | lia].
      * split; [intros _; lia | reflexivity].
      * intros n' s1' t1' Heq; injection Heq as <- <- <-.
        rewrite http_calls_app, app_nil_r.
        repeat split; try assumption; try discriminate; lia.
  - eexists; eexists; (split; [reflexivity |]).
    rewrite printed_app, zone_failures_app, Hp.
    unfold zone_failures at 2 4, len;
      cbn [app printed http_calls filter length Z.of_nat].
    repeat split; try discriminate; try lia.
Qed.

(** C3: validation raises exactly when some zone of the list is a "MASTER"
    zone with fewer than one nameserver or a "SLAVE" zone with fewer than
    one master; an absent, null or empty zones list passes; and when
    validation raises, [main] raises the same exception with the server
    untouched and no event at all, so without any HTTP call. *)
Theorem validate_data_rejects_invalid_zones (data : Config) :
  ((exists e, validate_data data = Raise e)
   <-> Exists invalid_zone (read_zones data)) /\
  validate_data (mkConfig ZonesAbsent) = Return tt /\
  validate_data (mkConfig ZonesNull) = Return tt /\
  validate_data (mkConfig (ZonesList [])) = Return tt /\
  (forall args s e,
      validate_data data = Raise e ->
      main respond args (Some data) s = (Raise e, s, [])).
Proof.
  split; [apply validate_zones_raises |].
  repeat split.
  intros args s e Hraise. unfold main, lift, bind. rewrite Hraise. reflexivity.
Qed.

(** C5, as the code has it: the probe sends one GET and never raises.  It
    answers false when the request got no reply or a 4xx or 5xx status,
    and true on every other status: on each 2xx, and also on a status
    below 400 or from 600 on that is not a 2xx. *)
Theorem zone_exists_single_get (url : string) (headers : Headers) (s : Server) :
  exists exists_ rp s' t,
    respond s (probe_request url headers) = (rp, s') /\
    zone_exists respond url headers s = (Return exists_, s', t) /\
    http_calls t = [(probe_request url headers, rp)] /\
    (exists_ = true <->
     exists c, rp = Status c /\ ((c < 400)%Z \/ (600 <= c)%Z)) /\
    (exists_ = false <->
     (exists w, rp = NoReply w) \/
     (exists c, rp = Status c /\ (400 <= c < 600)%Z)).
Proof.
  rewrite zone_exists_run. cbv zeta.
  destruct (respond s (probe_request url headers)) as [rp s'] eqn:Hrp.
  exists (negb (failed_reply rp)), rp, s'. eexists.
  split; [reflexivity |]. split; [reflexivity |]. split; [reflexivity |].
  destruct rp as [c | w]; cbn [failed_reply fst]; unfold is_error_status.
  - destruct (Z.leb_spec 400 c); destruct (Z.ltb_spec c 600); cbn; split; split;
      try discriminate; try reflexivity;
      try (intros _; exists c; split; [reflexivity | lia]);
      try (intros _; right; exists c; split; [reflexivity | lia]);
      try (intros [c' [Hc Hr]]; injection Hc as <-; lia);
      intros [[w Hw] | [c' [Hc Hr]]];
      try discriminate; injection Hc as <-; lia.
  - cbn. split; split; try discriminate; try reflexivity.
    + intros [c [Hc _]]; discriminate.
    + intros _; left; exists w; reflexivity.
Qed.

(** C4: when the probe of [<base>/<zoneName>] answers true, [create_zone]
    sends nothing more and returns true, and the turn of the loop goes on
    to the records of the zone; when it answers false, exactly one POST
    with the zone payload follows, and [create_zone] returns true exactly
    when that POST is answered 201. *)
Theorem create_zone_probe_then_post
    (args : Args) (headers : Headers) (zone : ZoneSpec) (s : Server) :
  forall exists_ s1 t1,
    zone_exists respond (zones_url args ++ "/" ++ zone_name zone) headers s
      = (Return exists_, s1, t1) ->
    (exists_ = true ->
     create_zone respond (zones_url args) headers zone s = (Return true, s1, t1) /\
     filter (is_method POST) (requests_of t1) = [] /\
     forall err_count, exists s2 t2,
       create_records respond (zones_url args) headers zone s1
         = (Return tt, s2, t2) /\
       create_step respond args headers zone err_count s
         = (Return err_count, s2, t1 ++ t2)) /\
    (exists_ = false ->
     exists o rp s2 t2,
       respond s1 (create_request (zones_url args) headers zone) = (rp, s2) /\
       create_zone respond (zones_url args) headers zone s = (o, s2, t1 ++ t2) /\
       http_calls t2 = [(create_request (zones_url args) headers zone, rp)] /\
       (o = Return true <-> rp = Status 201)).
Proof.
  intros exists_ s1 t1 Hprobe. split; intros ->.
  - assert (Hzone : create_zone respond (zones_url args) headers zone s
                    = (Return true, s1, t1)).
    { rewrite create_zone_run, Hprobe. reflexivity. }
    split; [exact Hzone |]. split.
    + rewrite zone_exists_run in Hprobe. injection Hprobe as _ _ <-. reflexivity.
    + intros n.
      destruct (for_each_create_record (zones_url args) headers zone
                  (zone_records zone) s1) as (s2 & t2 & Hrun & _).
      exists s2, t2. split; [exact Hrun |].
      unfold create_step, bind. rewrite Hzone.
      unfold create_records in Hrun |- *. rewrite Hrun.
      unfold ret. rewrite app_nil_r. reflexivity.
  - rewrite create_zone_run, Hprobe. cbv zeta.
    destruct (respond s1 (create_request (zones_url args) headers zone))
      as [rp s2].
    exists (create_result rp), rp, s2, (create_events (zones_url args) headers zone rp).
    split; [reflexivity |]. split; [reflexivity |]. split.
    + destruct rp; reflexivity.
    + destruct rp as [c | w]; cbn [create_result]; split; intros H;
        try discriminate.
      * injection H as H. apply Z.eqb_eq in H. subst c. reflexivity.
      * injection H as ->. reflexivity.
Qed.

(** C7: for a record with n contents [create_records] sends exactly one
    PATCH to [<base>/<zoneName>]; its payload holds one rrset with the
    name, type and ttl of the record, changetype "REPLACE", and a records
    array of n entries, one per content in input order, each with the
    disabled flag of the record.  The loop sends these calls for all the
    records of the zone, in order. *)
Theorem create_record_single_upsert
    (url : string) (headers : Headers) (zone : ZoneSpec) (record : RecordSpec)
    (s : Server) :
  let entries :=
    map (fun content =>
           JObj [("content", JStr content);
                 ("disabled", JBool (record_disabled record))])
        (record_content record) in
  let payload :=
    JObj [("rrsets",
           JList [JObj [("name", JStr (record_name record));
                        ("type", JStr (record_type record));
                        ("ttl", JNum (record_ttl record));
                        ("changetype", JStr "REPLACE");
                        ("records", JList entries)]])] in
  length entries = length (record_content record) /\
  (exists rp s' t,
      create_record respond url headers zone record s = (Return tt, s', t) /\
      http_calls t =
        [(mkRequest PATCH (url ++ "/" ++ zone_name zone) (Some payload) headers,
          rp)]) /\
  (exists s' t,
      create_records respond url headers zone s = (Return tt, s', t) /\
      requests_of t = map (upsert_request url headers zone) (zone_records zone)).
Proof.
  cbv zeta. split; [apply length_map |]. split.
  - rewrite create_record_run. cbv zeta.
    eexists; eexists; eexists. split; [reflexivity |].
    unfold upsert_request, record_payload. rewrite rr_records_map.
    destruct (failed_reply _); reflexivity.
  - destruct (for_each_create_record url headers zone (zone_records zone) s)
      as (s' & t & Hrun & Hreq & _).
    exists s', t. split; assumption.
Qed.

Lemma failed_changes_app (t1 t2 : list event) :
  failed_changes (t1 ++ t2) = failed_changes t1 ++ failed_changes t2.
Proof.
  unfold failed_changes. rewrite http_calls_app, filter_app, map_app.
  reflexivity.
Qed.

Lemma best_effort_bind (m k : M Server unit) :
  best_effort m -> best_effort k -> best_effort (bind m (fun _ => k)).
Proof.
  intros Hm Hk s. unfold bind.
  destruct (Hm s) as (s1 & t1 & -> & Hp1 & Hl1).
  destruct (Hk s1) as (s2 & t2 & -> & Hp2 & Hl2).
  exists s2, (t1 ++ t2). split; [reflexivity |].
  rewrite printed_app, logged_errors_app, failed_changes_app, Hp1, Hp2, Hl1, Hl2.
  split; reflexivity.
Qed.

Lemma best_effort_for_each {A : Type} (l : list A) (body : A -> M Server unit) :
  (forall x, best_effort (body x)) -> best_effort (for_each l body).
Proof.
  intros Hbody. induction l as [| x rest IH]; simpl.
  - intros s. exists s, []. repeat split; reflexivity.
  - apply best_effort_bind; [apply Hbody | exact IH].
Qed.

Lemma delete_record_best_effort (url : string) (headers : Headers)
    (zone : ZoneSpec) (record : RecordSpec) :
  best_effort (delete_record respond url headers zone record).
Proof.
  intros s. unfold delete_record. unfold logger at 1, emit, bind at 1 2.
  rewrite zone_exists_run. cbv zeta.
  destruct (respond s (probe_request url headers)) as [rp s1]. cbn [fst snd].
  destruct (failed_reply rp); cbn [negb].
  - unfold_monad. eexists; eexists. split; [reflexivity |].
    split; reflexivity.
  - unfold_monad.
    destruct (respond s1 _) as [[c | w] s2]; cbn [app].
    + destruct (is_error_status c) eqn:Hc; eexists; eexists;
        (split; [reflexivity |]);
        unfold failed_changes, failed_change;
        cbn [app http_calls printed logged_errors map filter fst snd negb andb
             is_method probe_request req_method failed_reply exn_of];
        rewrite ?Hc; cbn [map]; split; reflexivity.
    + eexists; eexists. split; [reflexivity |]. split; reflexivity.
Qed.

Lemma delete_zone_best_effort (url : string) (headers : Headers)
    (zone : ZoneSpec) :
  best_effort (delete_zone respond url headers zone).
Proof.
  intros s. unfold delete_zone. unfold logger at 1, emit, bind at 1 2.
  rewrite zone_exists_run. cbv zeta.
  destruct (respond s (probe_request url headers)) as [rp s1]. cbn [fst snd].
  destruct (failed_reply rp); cbn [negb].
  - unfold_monad. eexists; eexists. split; [reflexivity |].
    split; reflexivity.
  - unfold_monad.
    destruct (respond s1 _) as [[c | w] s2]; cbn [app].
    + destruct (is_error_status c) eqn:Hc; eexists; eexists;
        (split; [reflexivity |]);
        unfold failed_changes, failed_change;
        cbn [app http_calls printed logged_errors map filter fst snd negb andb
             is_method probe_request req_method failed_reply exn_of];
        rewrite ?Hc; cbn [map]; split; reflexivity.
    + eexists; eexists. split; [reflexivity |]. split; reflexivity.
Qed.

Lemma delete_best_effort (args : Args) (headers : Headers) (data : Config) :
  best_effort (delete respond args headers data).
Proof.
  unfold delete. apply best_effort_for_each. intros zone. cbv zeta.
  apply best_effort_bind.
  - unfold delete_records. apply best_effort_for_each. intros record.
    apply delete_record_best_effort.
  - apply delete_zone_best_effort.
Qed.

(** C9: a run of the delete path never raises and always prints
    "Delete operation successful", whatever the server answered; a failed
    record or zone deletion leaves one entry in the error log and nothing
    else: the error log of the run is the list of its failed deletions. *)
Theorem delete_always_reports_success
    (args : Args) (data : Config) (s : Server) :
  operation args = "delete" ->
  validate_data data = Return tt ->
  exists s' t,
    main respond args (Some data) s = (Return tt, s', t) /\
    printed t = ["Delete operation successful"] /\
    logged_errors t = failed_changes t.
Proof.
  intros Hop Hvalid. unfold main. rewrite Hop, Hvalid.
  change ("delete" =? "create")%string with false.
  change ("delete" =? "delete")%string with true.
  destruct (delete_best_effort args [("X-API-Key", key args)] data s)
    as (s' & t & Hrun & Hp & Hl).
  unfold lift, logger, print, emit, ret.
  unfold bind at 1 2. cbn [app]. unfold try_except_else.
  unfold bind at 1. rewrite Hrun. unfold bind. cbn [app].
  exists s'. eexists. split; [reflexivity |].
  rewrite app_nil_r, printed_app, logged_errors_app, failed_changes_app, Hp, Hl.
  split; [reflexivity |]. cbn. rewrite !app_nil_r. reflexivity.
Qed.

(** A zone whose creation is refused: its records are skipped, the skip
    is logged, the count grows by one and the loop goes on with the zones
    that follow. *)
Lemma create_continues_after_refused_zone
    (args : Args) (headers : Headers) (zone : ZoneSpec) (rest : list ZoneSpec)
    (err_count : Z) (s : Server) :
  forall s1 t1,
    create_zone respond (zones_url args) headers zone s = (Return false, s1, t1) ->
    for_fold (zone :: rest) (create_step respond args headers) err_count s =
    match for_fold rest (create_step respond args headers) (err_count + 1)%Z s1 with
    | (o, s2, t2) =>
        (o, s2,
         (t1 ++ [Log ERROR ("Zone " ++ zone_name zone
                              ++ " Creation failed. Skipping record creation")])
         ++ t2)
    end.
Proof.
  intros s1 t1 Hzone. cbn [for_fold]. unfold bind at 1.
  unfold create_step, bind at 1. rewrite Hzone.
  unfold logger, emit, ret, bind. reflexivity.
Qed.

(** C8, as the code has it: a failed record upsert is logged as an error
    and counted nowhere.  After a zone is created or found, the records
    loop returns nothing, sends the upsert of every record of the zone
    whatever the earlier ones were answered, and logs one error per failed
    upsert; the turn of the loop hands on the failure count unchanged and
    the loop goes on with the zones that follow. *)
Theorem failed_upsert_logged_not_counted
    (args : Args) (headers : Headers) (zone : ZoneSpec) (rest : list ZoneSpec)
    (err_count : Z) (s : Server) :
  forall s1 t1,
    create_zone respond (zones_url args) headers zone s = (Return true, s1, t1) ->
    exists s2 t2,
      create_records respond (zones_url args) headers zone s1
        = (Return tt, s2, t2) /\
      requests_of t2
        = map (upsert_request (zones_url args) headers zone) (zone_records zone) /\
      logged_errors t2 = failed_changes t2 /\
      create_step respond args headers zone err_count s
        = (Return err_count, s2, t1 ++ t2) /\
      for_fold (zone :: rest) (create_step respond args headers) err_count s =
      match for_fold rest (create_step respond args headers) err_count s2 with
      | (o, s3, t3) => (o, s3, (t1 ++ t2) ++ t3)
      end.
Proof.
  intros s1 t1 Hzone.
  destruct (for_each_create_record (zones_url args) headers zone
              (zone_records zone) s1) as (s2 & t2 & Hrun & Hreq & _ & _ & Hl).
  exists s2, t2.
  assert (Hstep : create_step respond args headers zone err_count s
                  = (Return err_count, s2, t1 ++ t2)).
  { unfold create_step, bind. rewrite Hzone. unfold create_records.
    rewrite Hrun. unfold ret. rewrite app_nil_r. reflexivity. }
  repeat split; try assumption.
  cbn [for_fold]. unfold bind at 1. rewrite Hstep. reflexivity.
Qed.

End Properties.

(** ** Concrete runs *)

Lemma create_reports_failure_iff_zone_failed_witness :
  exists s' t,
    main play (args0 "create") (Some (cfg [zone_a; zone_b])) first_zone_refused
      = (Return tt, s', t) /\
    (printed t = ["Create operation failed"] <-> (0 < zone_failures t)%Z) /\
    (printed t = ["Create operation successful"] <-> zone_failures t = 0%Z) /\
    (forall err_count s1 t1,
        create_loop play (args0 "create") [("X-API-Key", key (args0 "create"))]
                    (cfg [zone_a; zone_b]) first_zone_refused
          = (Return err_count, s1, t1) ->
        err_count = zone_failures t1 /\
        http_calls t = http_calls t1 /\
        (printed t = ["Create operation failed"] <-> (0 < err_count)%Z)).
Proof.
  apply (create_reports_failure_iff_zone_failed (list reply) play
           (args0 "create") (cfg [zone_a; zone_b]) first_zone_refused);
    reflexivity.
Defined.

Lemma validate_data_rejects_invalid_zones_witness :
  main play (args0 "create") (Some (cfg [zone_a; zone_m])) first_zone_refused
  = (Raise (Exception "A nameserver is required to create a MASTER zone"),
     first_zone_refused, []).
Proof.
  destruct (validate_data_rejects_invalid_zones (list reply) play
              (cfg [zone_a; zone_m])) as (_ & _ & _ & _ & Hmain).
  apply Hmain. reflexivity.
Defined.

Lemma create_zone_probe_then_post_witness :
  let url := zones_url (args0 "create") in
  let probe :=
    zone_exists play (url ++ "/" ++ zone_name zone_a) headers0
                [Status 404; Status 201] in
  exists o rp s2 t2,
    play [Status 201] (create_request url headers0 zone_a) = (rp, s2) /\
    create_zone play url headers0 zone_a [Status 404; Status 201]
      = (o, s2, snd probe ++ t2) /\
    http_calls t2 = [(create_request url headers0 zone_a, rp)] /\
    (o = Return true <-> rp = Status 201).
Proof.
  cbv zeta.
  refine (proj2 (create_zone_probe_then_post (list reply) play (args0 "create")
                   headers0 zone_a [Status 404; Status 201]
                   false [Status 201] _ _) eq_refl).
  reflexivity.
Defined.

Lemma failed_upsert_logged_not_counted_witness :
  let url := zones_url (args0 "create") in
  exists s2 t2,
    create_records play url headers0 zone_a [Status 500] = (Return tt, s2, t2) /\
    requests_of t2 = map (upsert_request url headers0 zone_a) (zone_records zone_a) /\
    logged_errors t2 = failed_changes t2 /\
    create_step play (args0 "create") headers0 zone_a 0%Z upsert_refused
      = (Return 0%Z, s2,
         snd (create_zone play url headers0 zone_a upsert_refused) ++ t2) /\
    for_fold [zone_a] (create_step play (args0 "create") headers0) 0%Z upsert_refused =
    match for_fold [] (create_step play (args0 "create") headers0) 0%Z s2 with
    | (o, s3, t3) =>
        (o, s3, (snd (create_zone play url headers0 zone_a upsert_refused) ++ t2) ++ t3)
    end.
Proof.
  cbv zeta.
  apply (failed_upsert_logged_not_counted (list reply) play (args0 "create")
           headers0 zone_a [] 0%Z upsert_refused [Status 500]).
  reflexivity.
Defined.

Lemma delete_always_reports_success_witness :
  exists s' t,
    main refuses_deletions (args0 "delete") (Some (cfg [zone_a; zone_b])) tt
      = (Return tt, s', t) /\
    printed t = ["Delete operation successful"] /\
    logged_errors t = failed_changes t.
Proof.
  apply (delete_always_reports_success unit refuses_deletions (args0 "delete")
           (cfg [zone_a; zone_b]) tt); reflexivity.
Defined.

(** The probe answers true on a 304, which is no 2xx. *)
Lemma zone_exists_true_on_304 :
  let url := (zones_url (args0 "create") ++ "/" ++ zone_name zone_a)%string in
  exists t,
    zone_exists play url headers0 [Status 304] = (Return true, [], t) /\
    http_calls t = [(probe_request url headers0, Status 304)] /\
    ~ (200 <= 304 < 300)%Z.
Proof.
  cbv zeta. eexists. split; [reflexivity |]. split; [reflexivity | lia].
Qed.

(** The upsert of the record of zone a is answered 500 and logged; the loop
    of [create] ends with a failure count of 0 and [main] reports success. *)
Lemma failed_upsert_leaves_count_at_zero :
  let url := zones_url (args0 "create") in
  exists t t',
    create_loop play (args0 "create") headers0 (cfg [zone_a]) upsert_refused
      = (Return 0%Z, [], t) /\
    http_calls t = [(probe_request (url ++ "/" ++ zone_name zone_a) headers0, Status 200);
                    (upsert_request url headers0 zone_a rec_a, Status 500)] /\
    logged_errors t = [inr (HTTPError 500)] /\
    main play (args0 "create") (Some (cfg [zone_a])) upsert_refused
      = (Return tt, [], t') /\
    printed t' = ["Create operation successful"].
Proof.
  cbv zeta. eexists; eexists.
  split; [reflexivity |]. split; [reflexivity |]. split; [reflexivity |].
  split; reflexivity.
Qed.

(** C2 on a creation that gets no reply: with zones a and b, the POST for
    zone a raises out of [create_zone] and out of the loop of [create].
    Zone b is never probed, none of the replies the server had for it is
    used, and [main] reports failure. *)
Theorem create_stops_at_unanswered_post :
  let url := zones_url (args0 "create") in
  exists t,
    main play (args0 "create") (Some (cfg [zone_a; zone_b])) post_unanswered
      = (Return tt, [Status 404; Status 201; Status 204; Status 204], t) /\
    http_calls t
      = [(probe_request (url ++ "/" ++ zone_name zone_a) headers0, Status 404);
         (create_request url headers0 zone_a, NoReply ConnectionError)] /\
    logged_errors t = [inl "Create operation failed"] /\
    printed t = ["Create operation failed"] /\
    create_loop play (args0 "create") headers0 (cfg [zone_a; zone_b]) post_unanswered
      = (Raise (RequestException ConnectionError),
         [Status 404; Status 201; Status 204; Status 204],
         firstn 4 t).
Proof.
  cbv zeta. eexists.
  split; [reflexivity |]. split; [reflexivity |]. split; [reflexivity |].
  split; reflexivity.
Qed.

(** A standalone zone that the probe does not find: one POST with an empty
    [masters], then one PATCH with one content entry, and success. *)
Example create_native_zone_end_to_end :
  let url := zones_url (args0 "create") in
  exists t,
    main play (args0 "create") (Some (cfg [zone_e])) [Status 404; Status 201; Status 204]
      = (Return tt, [], t) /\
    requests_of t
      = [probe_request (url ++ "/a.example.") headers0;
         mkRequest POST url
           (Some (JObj [("name", JStr "a.example."); ("kind", JStr "NATIVE");
                        ("masters", JList []); ("nameservers", JList [])]))
           headers0;
         mkRequest PATCH (url ++ "/a.example.")
           (Some (JObj [("rrsets",
                         JList [JObj [("name", JStr "a.example.");
                                      ("type", JStr "A");
                                      ("ttl", JNum 300);
                                      ("changetype", JStr "REPLACE");
                                      ("records",
                                       JList [JObj [("content", JStr "10.0.0.1");
                                                    ("disabled", JBool false)]])]])]))
           headers0] /\
    printed t = ["Create operation successful"].
Proof.
  cbv zeta. eexists. split; [reflexivity |]. split; reflexivity.
Qed.

(** The creation of zone a is refused with a 500, zone b is created: the
    records of a are skipped, both records of b are sent, the loop ends with
    a failure count of 1 and failure is reported. *)
Example create_goes_on_after_refused_zone :
  let url := zones_url (args0 "create") in
  exists t t',
    create_loop play (args0 "create") headers0 (cfg [zone_a; zone_b]) first_zone_refused
      = (Return 1%Z, [], t) /\
    requests_of t
      = [probe_request (url ++ "/a.example.") headers0;
         create_request url headers0 zone_a;
         probe_request (url ++ "/b.example.") headers0;
         create_request url headers0 zone_b;
         upsert_request url headers0 zone_b rec_a;
         upsert_request url headers0 zone_b rec_mx] /\
    logged_errors t
      = [inl "Zone a.example. Creation failed. Skipping record creation";
         inr (HTTPError 500)] /\
    main play (args0 "create") (Some (cfg [zone_a; zone_b])) first_zone_refused
      = (Return tt, [], t') /\
    printed t' = ["Create operation failed"].
Proof.
  cbv zeta. eexists; eexists.
  split; [reflexivity |]. split; [reflexivity |]. split; [reflexivity |].
  split; reflexivity.
Qed.

(** ** What a run sends *)

Section Requests.

Variable Server : Type.
Variable respond : Server -> request -> reply * Server.
Variable P : request -> Prop.

Lemma sends_ret {A : Type} (a : A) : sends P (ret (Server := Server) a).
Proof. intros s. constructor. Qed.

Lemma sends_raise {A : Type} (e : exn) : sends P (raise (Server := Server) (A := A) e).
Proof. intros s. constructor. Qed.

Lemma sends_lift {A : Type} (o : outcome A) : sends P (lift (Server := Server) o).
Proof. intros s. constructor. Qed.

Lemma sends_emit (ev : event) :
  (forall rq rp, ev <> Http rq rp) -> sends P (emit (Server := Server) ev).
Proof.
  intros Hev s. unfold emit, requests_of; cbn.
  destruct ev as [rq rp | lvl msg | e | msg]; [| constructor ..].
  exfalso. apply (Hev rq rp). reflexivity.
Qed.

Lemma sends_logger (lvl : level) (msg : string) :
  sends P (logger (Server := Server) lvl msg).
Proof. apply sends_emit. discriminate. Qed.

Lemma sends_print (msg : string) : sends P (print (Server := Server) msg).
Proof. apply sends_emit. discriminate. Qed.

Lemma sends_send (rq : request) : P rq -> sends P (send respond rq).
Proof.
  intros Hrq s. unfold send.
  destruct (respond s rq) as [[c | w] s']; cbn; repeat constructor; exact Hrq.
Qed.

Lemma Forall_requests_app (t1 t2 : list event) :
  Forall P (requests_of t1) -> Forall P (requests_of t2) ->
  Forall P (requests_of (t1 ++ t2)).
Proof.
  intros H1 H2. unfold requests_of in *.
  rewrite http_calls_app, map_app. apply Forall_app; split; assumption.
Qed.

Lemma sends_bind {A B : Type} (m : M Server A) (k : A -> M Server B) :
  sends P m -> (forall a, sends P (k a)) -> sends P (bind m k).
Proof.
  intros Hm Hk s. unfold bind.
  pose proof (Hm s) as H1.
  destruct (m s) as [[[a | e] s1] t1]; cbn [snd] in *; [| exact H1].
  pose proof (Hk a s1) as H2.
  destruct (k a s1) as [[o s2] t2]; cbn [snd] in *.
  apply Forall_requests_app; assumption.
Qed.

Lemma sends_try_except_else {A B : Type}
    (body : M Server A) (handler : exn -> M Server B) (orelse : A -> M Server B) :
  sends P body ->
  (forall e, sends P (handler e)) ->
  (forall a, sends P (orelse a)) ->
  sends P (try_except_else body handler orelse).
Proof.
  intros Hb Hh Ho s. unfold try_except_else.
  pose proof (Hb s) as H1.
  destruct (body s) as [[[a | e] s1] t1]; cbn [snd] in *.
  - pose proof (Ho a s1) as H2.
    destruct (orelse a s1) as [[o s2] t2]; cbn [snd] in *.
    apply Forall_requests_app; assumption.
  - pose proof (Hh e s1) as H2.
    destruct (handler e s1) as [[o s2] t2]; cbn [snd] in *.
    apply Forall_requests_app; assumption.
Qed.

Lemma sends_for_each {A : Type} (l : list A) (body : A -> M Server unit) :
  (forall x, In x l -> sends P (body x)) -> sends P (for_each l body).
Proof.
  induction l as [| x rest IH]; intros Hbody; cbn [for_each].
  - apply sends_ret.
  - apply sends_bind.
    + apply Hbody. left; reflexivity.
    + intros _. apply IH. intros y Hy. apply Hbody. right; exact Hy.
Qed.

Lemma sends_for_fold {A S : Type} (l : list A) (body : A -> S -> M Server S) :
  (forall x acc, In x l -> sends P (body x acc)) ->
  forall acc, sends P (for_fold l body acc).
Proof.
  induction l as [| x rest IH]; intros Hbody acc; cbn [for_fold].
  - apply sends_ret.
  - apply sends_bind.
    + apply Hbody. left; reflexivity.
    + intros acc'. apply IH. intros y acc'' Hy. apply Hbody. right; exact Hy.
Qed.

Lemma sends_raise_for_status (response : Z) :
  sends P (raise_for_status (Server := Server) response).
Proof.
  unfold raise_for_status.
  destruct (is_error_status response); [apply sends_raise | apply sends_ret].
Qed.

Lemma sends_zone_exists (url : string) (headers : Headers) :
  P (probe_request url headers) -> sends P (zone_exists respond url headers).
Proof.
  intros Hp. unfold zone_exists.
  apply sends_bind; [apply sends_logger | intros _].
  apply sends_try_except_else.
  - apply sends_bind; [apply sends_send; exact Hp | intros c].
    apply sends_raise_for_status.
  - intros _. apply sends_ret.
  - intros _. apply sends_ret.
Qed.

Lemma sends_create_zone (url : string) (headers : Headers) (zone : ZoneSpec) :
  P (probe_request (url ++ "/" ++ zone_name zone) headers) ->
  P (create_request url headers zone) ->
  sends P (create_zone respond url headers zone).
Proof.
  intros Hp Hc. unfold create_zone. cbv zeta.
  apply sends_bind; [apply sends_zone_exists; exact Hp | intros [|]]; cbn [negb].
  - apply sends_ret.
  - apply sends_bind; [apply sends_logger | intros _].
    apply sends_bind; [apply sends_send; exact Hc | intros c].
    destruct (c =? 201)%Z;
      (apply sends_bind; [apply sends_logger | intros _; apply sends_ret]).
Qed.

Lemma sends_create_record (url : string) (headers : Headers) (zone : ZoneSpec)
    (record : RecordSpec) :
  P (upsert_request url headers zone record) ->
  sends P (create_record respond url headers zone record).
Proof.
  intros Hu. unfold create_record. cbv zeta.
  apply sends_try_except_else.
  - apply sends_bind; [apply sends_logger | intros _].
    apply sends_bind; [apply sends_send; exact Hu | intros c].
    apply sends_raise_for_status.
  - intros e. apply sends_emit. discriminate.
  - intros _. apply sends_logger.
Qed.

Lemma sends_delete_record (url : string) (headers : Headers) (zone : ZoneSpec)
    (record : RecordSpec) :
  P (probe_request url headers) ->
  P (delete_record_request url headers record) ->
  sends P (delete_record respond url headers zone record).
Proof.
  intros Hp Hd. unfold delete_record. cbv zeta.
  apply sends_bind; [apply sends_logger | intros _].
  apply sends_bind; [apply sends_zone_exists; exact Hp | intros [|]].
  - apply sends_try_except_else.
    + apply sends_bind; [apply sends_send; exact Hd | intros c].
      apply sends_raise_for_status.
    + intros e. apply sends_emit. discriminate.
    + intros _. apply sends_logger.
  - apply sends_logger.
Qed.

Lemma sends_delete_zone (url : string) (headers : Headers) (zone : ZoneSpec) :
  P (probe_request url headers) ->
  P (delete_zone_request url headers zone) ->
  sends P (delete_zone respond url headers zone).
Proof.
  intros Hp Hd. unfold delete_zone. cbv zeta.
  apply sends_bind; [apply sends_logger | intros _].
  apply sends_bind; [apply sends_zone_exists; exact Hp | intros [|]].
  - apply sends_try_except_else.
    + apply sends_bind; [apply sends_send; exact Hd | intros c].
      apply sends_raise_for_status.
    + intros e. apply sends_emit. discriminate.
    + intros _. apply sends_logger.
  - apply sends_logger.
Qed.

End Requests.

Section Targets.

Variable Server : Type.
Variable respond : Server -> request -> reply * Server.

Lemma sends_mono {A : Type} (P Q : request -> Prop) (m : M Server A) :
  (forall rq, P rq -> Q rq) -> sends P m -> sends Q m.
Proof.
  intros HPQ Hm s. eapply Forall_impl; [exact HPQ | apply Hm].
Qed.

Lemma create_sends_targets (args : Args) (headers : Headers) (data : Config) :
  sends (create_target args headers (read_zones data))
        (create respond args headers data).
Proof.
  unfold create. apply sends_bind.
  - unfold create_loop. apply sends_for_fold. intros zone acc Hzone.
    unfold create_step. cbv zeta.
    apply sends_bind.
    + apply sends_create_zone; exists zone; (split; [exact Hzone |]).
      * left; reflexivity.
      * right; left; reflexivity.
    + intros [|].
      * apply sends_bind; [| intros _; apply sends_ret].
        unfold create_records. apply sends_for_each. intros record Hrecord.
        apply sends_create_record. exists zone. split; [exact Hzone |].
        right; right. exists record. split; [exact Hrecord | reflexivity].
      * apply sends_bind; [apply sends_logger | intros _; apply sends_ret].
  - intros n. destruct (n >? 0)%Z; [apply sends_raise | apply sends_ret].
Qed.

Lemma delete_sends_targets (args : Args) (headers : Headers) (data : Config) :
  sends (delete_target args headers (read_zones data))
        (delete respond args headers data).
Proof.
  unfold delete. apply sends_for_each. intros zone Hzone. cbv zeta.
  apply sends_bind.
  - unfold delete_records. apply sends_for_each. intros record Hrecord.
    apply sends_delete_record; exists zone; (split; [exact Hzone |]).
    + left; reflexivity.
    + right; right. exists record. split; [exact Hrecord | reflexivity].
  - intros _. apply sends_delete_zone; exists zone; (split; [exact Hzone |]).
    + left; reflexivity.
    + right; left; reflexivity.
Qed.

(** Whatever [main] sends is a request of the create path when the
    operation is "create" and of the delete path when it is "delete". *)
Lemma main_sends_targets (args : Args) (data : Config) :
  sends (fun rq =>
           (operation args = "create" /\
            create_target args [("X-API-Key", key args)] (read_zones data) rq) \/
           (operation args = "delete" /\
            delete_target args [("X-API-Key", key args)] (read_zones data) rq))
        (main respond args (Some data)).
Proof.
  unfold main. apply sends_bind; [apply sends_lift | intros _]. cbv zeta.
  apply sends_bind; [| intros _].
  - destruct (String.eqb_spec (operation args) "create") as [Hop | Hop];
      [| apply sends_ret].
    apply sends_try_except_else.
    + apply sends_bind.
      * eapply sends_mono; [| apply create_sends_targets].
        intros rq Hrq. left. split; assumption.
      * intros _. apply sends_bind; [apply sends_logger | intros _; apply sends_print].
    + intros _. apply sends_bind; [apply sends_logger | intros _; apply sends_print].
    + intros _. apply sends_ret.
  - destruct (String.eqb_spec (operation args) "delete") as [Hop | Hop];
      [| apply sends_ret].
    apply sends_try_except_else.
    + apply sends_bind.
      * eapply sends_mono; [| apply delete_sends_targets].
        intros rq Hrq. right. split; assumption.
      * intros _. apply sends_bind; [apply sends_logger | intros _; apply sends_print].
    + intros _. apply sends_bind; [apply sends_logger | intros _; apply sends_print].
    + intros _. apply sends_ret.
Qed.


(** X2: a run in create mode sends only probes and upserts to
    [<base>/<zoneName>] and creations to [<base>], each for a zone (and a
    record) of the document; it never sends a DELETE. *)
Theorem create_run_sends_only_create_targets
    (args : Args) (data : Config) (s : Server) :
  operation args = "create" ->
  Forall (fun rq =>
            create_target args [("X-API-Key", key args)] (read_zones data) rq /\
            req_method rq <> DELETE /\
            (req_url rq = zones_url args \/
             exists zone, In zone (read_zones data) /\ req_url rq = zone_url args zone))
         (requests_of (snd (main respond args (Some data) s))).
Proof.
  intros Hop. eapply Forall_impl; [| apply main_sends_targets].
  intros rq [[_ Ht] | [Hdel _]]; [| rewrite Hop in Hdel; discriminate Hdel].
  split; [exact Ht |].
  destruct Ht as (zone & Hzone & [-> | [-> | (record & _ & ->)]]); cbn;
    (split; [discriminate |]).
  - right. exists zone. split; [exact Hzone | reflexivity].
  - left. reflexivity.
  - right. exists zone. split; [exact Hzone | reflexivity].
Qed.

(** X3: a run in delete mode sends only probes, record deletions and zone
    deletions, all to [<base>/<zoneName>] of a zone of the document; it
    never sends a POST. *)
Theorem delete_run_sends_only_delete_targets
    (args : Args) (data : Config) (s : Server) :
  operation args = "delete" ->
  Forall (fun rq =>
            delete_target args [("X-API-Key", key args)] (read_zones data) rq /\
            req_method rq <> POST /\
            exists zone, In zone (read_zones data) /\ req_url rq = zone_url args zone)
         (requests_of (snd (main respond args (Some data) s))).
Proof.
  intros Hop. eapply Forall_impl; [| apply main_sends_targets].
  intros rq [[Hcre _] | [_ Ht]]; [rewrite Hop in Hcre; discriminate Hcre |].
  split; [exact Ht |].
  destruct Ht as (zone & Hzone & [-> | [-> | (record & _ & ->)]]); cbn;
    (split; [discriminate |]); exists zone; (split; [exact Hzone | reflexivity]).
Qed.

End Targets.

(** ** The delete path, call by call *)

Section DeleteRuns.

Variable Server : Type.
Variable respond : Server -> request -> reply * Server.

Lemma delete_record_run (url : string) (headers : Headers) (zone : ZoneSpec)
    (record : RecordSpec) (s : Server) :
  delete_record respond url headers zone record s =
  let probe := probe_request url headers in
  let rp := fst (respond s probe) in
  let s1 := snd (respond s probe) in
  let t1 := [Log INFO ("Request to delete record  " ++ record_name record);
             Log DEBUG ("Sending GET request to " ++ url);
             Http probe rp] in
  if failed_reply rp then
    (Return tt, s1,
     t1 ++ [Log INFO ("Zone " ++ zone_name zone ++ " for the record "
                        ++ record_name record
                        ++ " requested to be deleted does not exists")])
  else
    let rq := delete_record_request url headers record in
    let rp2 := fst (respond s1 rq) in
    (Return tt, snd (respond s1 rq),
     t1 ++ [Http rq rp2;
            if failed_reply rp2 then LogError (exn_of rp2)
            else Log INFO ("Successful deleted DNS record " ++ record_name record)]).
Proof.
  unfold delete_record. unfold logger at 1, emit, bind at 1 2.
  rewrite zone_exists_run. cbv zeta.
  destruct (respond s (probe_request url headers)) as [rp s1]. cbn [fst snd].
  destruct (failed_reply rp); cbn [negb].
  - reflexivity.
  - unfold delete_record_request. unfold_monad.
    destruct (respond s1 _) as [[c | w] s2]; cbn [app fst snd failed_reply exn_of];
      [| reflexivity].
    destruct (is_error_status c); reflexivity.
Qed.

Lemma delete_zone_run (url : string) (headers : Headers) (zone : ZoneSpec)
    (s : Server) :
  delete_zone respond url headers zone s =
  let probe := probe_request url headers in
  let rp := fst (respond s probe) in
  let s1 := snd (respond s probe) in
  let t1 := [Log INFO ("Request to delete Zone " ++ zone_name zone);
             Log DEBUG ("Sending GET request to " ++ url);
             Http probe rp] in
  if failed_reply rp then
    (Return tt, s1,
     t1 ++ [Log INFO ("Zone " ++ zone_name zone
                        ++ " requested to be deleted does not exists")])
  else
    let rq := delete_zone_request url headers zone in
    let rp2 := fst (respond s1 rq) in
    (Return tt, snd (respond s1 rq),
     t1 ++ [Http rq rp2;
            if failed_reply rp2 then LogError (exn_of rp2)
            else Log INFO ("Successful deleted zone " ++ zone_name zone)]).
Proof.
  unfold delete_zone. unfold logger at 1, emit, bind at 1 2.
  rewrite zone_exists_run. cbv zeta.
  destruct (respond s (probe_request url headers)) as [rp s1]. cbn [fst snd].
  destruct (failed_reply rp); cbn [negb].
  - reflexivity.
  - unfold delete_zone_request. unfold_monad.
    destruct (respond s1 _) as [[c | w] s2]; cbn [app fst snd failed_reply exn_of];
      [| reflexivity].
    destruct (is_error_status c); reflexivity.
Qed.

(** X4: [delete_records] probes the zone anew for each record.  When the
    probe fails (no reply, 4xx, 5xx) no deletion is sent for the record and
    nothing is logged as an error; when it succeeds exactly one PATCH
    follows, to the same URL, with changetype "DELETE" for the name and
    type of the record, and a failure of that PATCH is logged and nothing
    more.  Either way the call returns. *)
Theorem delete_record_probe_guards_patch
    (url : string) (headers : Headers) (zone : ZoneSpec) (record : RecordSpec)
    (s : Server) :
  let probe := probe_request url headers in
  let rq := mkRequest PATCH url
              (Some (JObj [("rrsets",
                            JList [JObj [("name", JStr (record_name record));
                                         ("type", JStr (record_type record));
                                         ("changetype", JStr "DELETE")]])]))
              headers in
  exists rp s1 s' t,
    respond s probe = (rp, s1) /\
    delete_record respond url headers zone record s = (Return tt, s', t) /\
    ((failed_reply rp = true /\ s' = s1 /\
      http_calls t = [(probe, rp)] /\ logged_errors t = [])
     \/
     (failed_reply rp = false /\
      exists rp2,
        respond s1 rq = (rp2, s') /\
        http_calls t = [(probe, rp); (rq, rp2)] /\
        logged_errors t = if failed_reply rp2 then [inr (exn_of rp2)] else [])).
Proof.
  cbv zeta. rewrite delete_record_run. cbv zeta.
  destruct (respond s (probe_request url headers)) as [rp s1] eqn:Hprobe.
  cbn [fst snd]. exists rp, s1.
  destruct (failed_reply rp) eqn:Hrp.
  - eexists; eexists. split; [reflexivity |]. split; [reflexivity |].
    left. repeat split; reflexivity.
  - unfold delete_record_request, delete_record_payload.
    match goal with |- context [respond s1 ?r] =>
      destruct (respond s1 r) as [rp2 s2] eqn:Hrq end.
    cbn [fst snd].
    eexists; eexists. split; [reflexivity |]. split; [reflexivity |].
    right. split; [reflexivity |]. exists rp2. split; [reflexivity |].
    destruct (failed_reply rp2); split; reflexivity.
Qed.

(** X5: [delete_zone] probes the zone once more.  When the probe fails no
    DELETE is sent and nothing is logged as an error; when it succeeds
    exactly one DELETE follows, to the same URL, with the name of the zone
    as its body, and a failure of that DELETE is logged and nothing more.
    Either way the call returns. *)
Theorem delete_zone_probe_guards_delete
    (url : string) (headers : Headers) (zone : ZoneSpec) (s : Server) :
  let probe := probe_request url headers in
  let rq := mkRequest DELETE url
              (Some (JObj [("name", JStr (zone_name zone))])) headers in
  exists rp s1 s' t,
    respond s probe = (rp, s1) /\
    delete_zone respond url headers zone s = (Return tt, s', t) /\
    ((failed_reply rp = true /\ s' = s1 /\
      http_calls t = [(probe, rp)] /\ logged_errors t = [])
     \/
     (failed_reply rp = false /\
      exists rp2,
        respond s1 rq = (rp2, s') /\
        http_calls t = [(probe, rp); (rq, rp2)] /\
        logged_errors t = if failed_reply rp2 then [inr (exn_of rp2)] else [])).
Proof.
  cbv zeta. rewrite delete_zone_run. cbv zeta.
  destruct (respond s (probe_request url headers)) as [rp s1] eqn:Hprobe.
  cbn [fst snd]. exists rp, s1.
  destruct (failed_reply rp) eqn:Hrp.
  - eexists; eexists. split; [reflexivity |]. split; [reflexivity |].
    left. repeat split; reflexivity.
  - unfold delete_zone_request, delete_zone_payload.
    match goal with |- context [respond s1 ?r] =>
      destruct (respond s1 r) as [rp2 s2] eqn:Hrq end.
    cbn [fst snd].
    eexists; eexists. split; [reflexivity |]. split; [reflexivity |].
    right. split; [reflexivity |]. exists rp2. split; [reflexivity |].
    destruct (failed_reply rp2); split; reflexivity.
Qed.

End DeleteRuns.

(** ** The delete path, run by run *)

Section DeleteLoop.

Variable Server : Type.
Variable respond : Server -> request -> reply * Server.

Lemma probes_app (t1 t2 : list event) :
  probes (t1 ++ t2) = probes t1 ++ probes t2.
Proof.
  unfold probes, requests_of. rewrite http_calls_app, map_app, filter_app.
  reflexivity.
Qed.

Lemma probing_bind (H : Prop) (m k : M Server unit) (p1 p2 : list request) :
  probing H m p1 -> probing H k p2 -> probing H (bind m (fun _ => k)) (p1 ++ p2).
Proof.
  intros Hm Hk s. unfold bind.
  destruct (Hm s) as (s1 & t1 & -> & Hp1 & Hn1 & Hh1).
  destruct (Hk s1) as (s2 & t2 & -> & Hp2 & Hn2 & Hh2).
  exists s2, (t1 ++ t2). split; [reflexivity |].
  rewrite probes_app, printed_app, Hp1, Hp2, Hn1, Hn2.
  split; [reflexivity |]. split; [reflexivity |].
  intros HH. destruct (Hh1 HH) as [Hr1 Hl1]. destruct (Hh2 HH) as [Hr2 Hl2].
  unfold requests_of in *.
  rewrite http_calls_app, map_app, logged_errors_app, Hr1, Hr2, Hl1, Hl2.
  split; reflexivity.
Qed.

Lemma probing_for_each {A : Type} (H : Prop) (l : list A)
    (body : A -> M Server unit) (f : A -> list request) :
  (forall x, probing H (body x) (f x)) ->
  probing H (for_each l body) (flat_map f l).
Proof.
  intros Hbody. induction l as [| x rest IH]; cbn [for_each flat_map].
  - intros s. exists s, []. repeat split; reflexivity.
  - apply probing_bind; [apply Hbody | exact IH].
Qed.

Lemma probing_delete_record (url : string) (headers : Headers) (zone : ZoneSpec)
    (record : RecordSpec) :
  probing (probes_fail respond) (delete_record respond url headers zone record)
          [probe_request url headers].
Proof.
  intros s. rewrite delete_record_run. cbv zeta.
  destruct (failed_reply (fst (respond s (probe_request url headers)))) eqn:Hrp.
  - eexists; eexists. split; [reflexivity |]. repeat split; reflexivity.
  - match goal with |- context [if failed_reply ?r then _ else _] =>
      destruct (failed_reply r) end;
      (eexists; eexists; split; [reflexivity |];
       split; [reflexivity |]; split; [reflexivity |];
       intros Hfail; rewrite (Hfail s (probe_request url headers) eq_refl) in Hrp;
       discriminate Hrp).
Qed.

Lemma probing_delete_zone (url : string) (headers : Headers) (zone : ZoneSpec) :
  probing (probes_fail respond) (delete_zone respond url headers zone)
          [probe_request url headers].
Proof.
  intros s. rewrite delete_zone_run. cbv zeta.
  destruct (failed_reply (fst (respond s (probe_request url headers)))) eqn:Hrp.
  - eexists; eexists. split; [reflexivity |]. repeat split; reflexivity.
  - match goal with |- context [if failed_reply ?r then _ else _] =>
      destruct (failed_reply r) end;
      (eexists; eexists; split; [reflexivity |];
       split; [reflexivity |]; split; [reflexivity |];
       intros Hfail; rewrite (Hfail s (probe_request url headers) eq_refl) in Hrp;
       discriminate Hrp).
Qed.

Lemma flat_map_singleton {A B : Type} (b : B) (l : list A) :
  flat_map (fun _ => [b]) l = repeat b (length l).
Proof.
  induction l as [| x rest IH]; cbn; [reflexivity | rewrite IH; reflexivity].
Qed.

Lemma probing_delete (args : Args) (headers : Headers) (data : Config) :
  probing (probes_fail respond) (delete respond args headers data)
          (delete_probes args headers (read_zones data)).
Proof.
  unfold delete, delete_probes. apply probing_for_each. intros zone. cbv zeta.
  change (repeat (probe_request (zone_url args zone) headers)
                 (S (length (zone_records zone))))
    with (probe_request (zone_url args zone) headers
            :: repeat (probe_request (zone_url args zone) headers)
                      (length (zone_records zone))).
  rewrite repeat_cons. apply probing_bind.
  - unfold delete_records. rewrite <- flat_map_singleton.
    apply probing_for_each. intros record. apply probing_delete_record.
  - apply probing_delete_zone.
Qed.

Lemma main_delete_run (args : Args) (data : Config) (s : Server) :
  operation args = "delete" ->
  validate_data data = Return tt ->
  forall s1 t1,
    delete respond args [("X-API-Key", key args)] data s = (Return tt, s1, t1) ->
    main respond args (Some data) s =
    (Return tt, s1,
     t1 ++ [Log INFO "Delete operation successful";
            Stdout "Delete operation successful"]).
Proof.
  intros Hop Hvalid s1 t1 Hrun. unfold main. rewrite Hop, Hvalid.
  change ("delete" =? "create")%string with false.
  change ("delete" =? "delete")%string with true.
  unfold lift, logger, print, emit, ret.
  unfold bind at 1 2. cbn [app]. unfold try_except_else.
  unfold bind at 1. rewrite Hrun. unfold bind. cbn [app].
  rewrite app_nil_r. reflexivity.
Qed.

(** X6: a run in delete mode probes each zone once per record and once more
    before the zone deletion, in the order of the document, whatever the
    server answers: the GET requests of the run are fixed by the document
    alone. *)
Theorem delete_probes_per_record_and_zone
    (args : Args) (data : Config) (s : Server) :
  operation args = "delete" ->
  validate_data data = Return tt ->
  exists s' t,
    main respond args (Some data) s = (Return tt, s', t) /\
    probes t = delete_probes args [("X-API-Key", key args)] (read_zones data) /\
    length (probes t)
    = list_sum (map (fun zone => S (length (zone_records zone))) (read_zones data)).
Proof.
  intros Hop Hvalid.
  destruct (probing_delete args [("X-API-Key", key args)] data s)
    as (s' & t & Hrun & Hp & _ & _).
  rewrite (main_delete_run args data s Hop Hvalid s' t Hrun).
  eexists; eexists. split; [reflexivity |].
  rewrite probes_app, Hp. cbn [probes requests_of http_calls map filter].
  rewrite app_nil_r. split; [reflexivity |].
  unfold delete_probes. clear.
  induction (read_zones data) as [| zone rest IH]; [reflexivity |].
  cbn [flat_map map list_sum]. rewrite length_app, repeat_length, IH. reflexivity.
Qed.

(** X7: when every probe fails (the server is down, or answers every GET
    with a 4xx or 5xx) a run in delete mode sends only its probes, deletes
    nothing, logs no error and still prints "Delete operation successful". *)
Theorem delete_with_failing_probes_reports_success
    (args : Args) (data : Config) (s : Server) :
  probes_fail respond ->
  operation args = "delete" ->
  validate_data data = Return tt ->
  exists s' t,
    main respond args (Some data) s = (Return tt, s', t) /\
    requests_of t = delete_probes args [("X-API-Key", key args)] (read_zones data) /\
    logged_errors t = [] /\
    printed t = ["Delete operation successful"].
Proof.
  intros Hfail Hop Hvalid.
  destruct (probing_delete args [("X-API-Key", key args)] data s)
    as (s' & t & Hrun & _ & Hn & Hh).
  destruct (Hh Hfail) as [Hr Hl].
  rewrite (main_delete_run args data s Hop Hvalid s' t Hrun).
  eexists; eexists. split; [reflexivity |].
  unfold requests_of in *.
  rewrite http_calls_app, map_app, logged_errors_app, printed_app, Hr, Hl, Hn.
  cbn. rewrite app_nil_r. repeat split; reflexivity.
Qed.

End DeleteLoop.

(** ** The create path, zone by zone *)

Section CreateRuns.

Variable Server : Type.
Variable respond : Server -> request -> reply * Server.

Variable args : Args.
Variable headers : Headers.

(** The zone is found: its records are sent and the count is kept. *)
Lemma create_step_found (zone : ZoneSpec) (n : Z) (s : Server) :
  failed_reply (fst (respond s (zone_probe args headers zone))) = false ->
  exists s' t,
    create_step respond args headers zone n s = (Return n, s', t) /\
    requests_of t = zone_probe args headers zone :: upserts_of args headers zone.
Proof.
  intros Hfound. unfold create_step, bind at 1.
  rewrite create_zone_run, zone_exists_run. cbv zeta.
  unfold zone_probe, zone_url in Hfound. rewrite Hfound. cbn [negb].
  destruct (for_each_create_record _ respond (zones_url args) headers zone (zone_records zone)
              (snd (respond s (probe_request (zones_url args ++ "/" ++ zone_name zone)
                                headers))))
    as (s' & t & Hrun & Hreq & _).
  unfold bind, create_records. rewrite Hrun. unfold ret.
  eexists; eexists. split; [reflexivity |].
  rewrite app_nil_r. unfold requests_of in *. cbn. rewrite Hreq. reflexivity.
Qed.

(** The zone is not found and its creation is answered 201. *)
Lemma create_step_created (zone : ZoneSpec) (n : Z) (s : Server) :
  failed_reply (fst (respond s (zone_probe args headers zone))) = true ->
  fst (respond (snd (respond s (zone_probe args headers zone))) (zone_creation args headers zone)) = Status 201 ->
  exists s' t,
    create_step respond args headers zone n s = (Return n, s', t) /\
    requests_of t = zone_probe args headers zone :: zone_creation args headers zone :: upserts_of args headers zone.
Proof.
  intros Hmissing Hcreated. unfold create_step, bind at 1.
  rewrite create_zone_run, zone_exists_run. cbv zeta.
  unfold zone_probe, zone_creation, zone_url in Hmissing, Hcreated.
  rewrite Hmissing. cbn [negb fst snd]. rewrite Hcreated. cbn [create_result].
  change (201 =? 201)%Z with true.
  unfold bind, create_records.
  match goal with |- context [for_each ?l (create_record respond ?u ?h ?z) ?s1] =>
    destruct (for_each_create_record _ respond u h z l s1)
      as (s' & t & Hrun & Hreq & _) end.
  rewrite Hrun. unfold ret.
  eexists; eexists. split; [reflexivity |].
  rewrite app_nil_r. unfold requests_of, create_events in *. cbn.
  rewrite Hreq. reflexivity.
Qed.

(** The zone is not found and its creation is answered, but not 201. *)
Lemma create_step_refused (zone : ZoneSpec) (n c : Z) (s : Server) :
  failed_reply (fst (respond s (zone_probe args headers zone))) = true ->
  fst (respond (snd (respond s (zone_probe args headers zone))) (zone_creation args headers zone)) = Status c ->
  c <> 201%Z ->
  exists t,
    create_step respond args headers zone n s
    = (Return (n + 1)%Z,
       snd (respond (snd (respond s (zone_probe args headers zone))) (zone_creation args headers zone)), t) /\
    http_calls t = [(zone_probe args headers zone, fst (respond s (zone_probe args headers zone)));
                    (zone_creation args headers zone, Status c)] /\
    logged_errors t
    = [inl ("Zone " ++ zone_name zone
              ++ " Creation failed. Skipping record creation")%string].
Proof.
  intros Hmissing Hrefused Hc. unfold create_step, bind at 1.
  rewrite create_zone_run, zone_exists_run. cbv zeta.
  unfold zone_probe, zone_creation, zone_url in *.
  rewrite Hmissing. cbn [negb fst snd]. rewrite Hrefused. cbn [create_result].
  apply Z.eqb_neq in Hc. rewrite Hc.
  unfold logger, emit, ret, bind, create_events. rewrite Hc.
  eexists. split; [reflexivity |]. split; reflexivity.
Qed.

(** The zone is not found and its creation gets no reply. *)
Lemma create_step_unanswered (zone : ZoneSpec) (n : Z) (w : net_failure) (s : Server) :
  failed_reply (fst (respond s (zone_probe args headers zone))) = true ->
  fst (respond (snd (respond s (zone_probe args headers zone))) (zone_creation args headers zone)) = NoReply w ->
  exists t,
    create_step respond args headers zone n s
    = (Raise (RequestException w),
       snd (respond (snd (respond s (zone_probe args headers zone))) (zone_creation args headers zone)), t) /\
    http_calls t = [(zone_probe args headers zone, fst (respond s (zone_probe args headers zone)));
                    (zone_creation args headers zone, NoReply w)] /\
    logged_errors t = [] /\
    printed t = [].
Proof.
  intros Hmissing Hnone. unfold create_step, bind at 1.
  rewrite create_zone_run, zone_exists_run. cbv zeta.
  unfold zone_probe, zone_creation, zone_url in *.
  rewrite Hmissing. cbn [negb fst snd]. rewrite Hnone. cbn [create_result].
  eexists. split; [reflexivity |]. repeat split; reflexivity.
Qed.

Lemma requests_of_app_eq (t1 t2 : list event) :
  requests_of (t1 ++ t2) = requests_of t1 ++ requests_of t2.
Proof. unfold requests_of. rewrite http_calls_app, map_app. reflexivity. Qed.

Lemma create_loop_found (zones : list ZoneSpec) :
  probes_succeed respond ->
  forall n s, exists s' t,
    for_fold zones (create_step respond args headers) n s = (Return n, s', t) /\
    requests_of t = rerun_requests args headers zones.
Proof.
  intros Hget. induction zones as [| zone rest IH]; intros n s; cbn [for_fold].
  - exists s, []. split; reflexivity.
  - destruct (create_step_found zone n s) as (s1 & t1 & Hstep & Hreq1).
    { apply Hget. reflexivity. }
    destruct (IH n s1) as (s2 & t2 & Hrest & Hreq2).
    unfold bind. rewrite Hstep, Hrest.
    eexists; eexists. split; [reflexivity |].
    rewrite requests_of_app_eq, Hreq1, Hreq2. reflexivity.
Qed.

Lemma create_loop_fresh (zones : list ZoneSpec) :
  probes_fail respond ->
  creations_succeed respond ->
  forall n s, exists s' t,
    for_fold zones (create_step respond args headers) n s = (Return n, s', t) /\
    requests_of t = fresh_requests args headers zones.
Proof.
  intros Hget Hpost. induction zones as [| zone rest IH]; intros n s; cbn [for_fold].
  - exists s, []. split; reflexivity.
  - destruct (create_step_created zone n s) as (s1 & t1 & Hstep & Hreq1).
    { apply Hget. reflexivity. }
    { apply Hpost. reflexivity. }
    destruct (IH n s1) as (s2 & t2 & Hrest & Hreq2).
    unfold bind. rewrite Hstep, Hrest.
    eexists; eexists. split; [reflexivity |].
    rewrite requests_of_app_eq, Hreq1, Hreq2. reflexivity.
Qed.

Lemma probes_upserts (zone : ZoneSpec) :
  filter (is_method GET) (upserts_of args headers zone) = [].
Proof.
  unfold upserts_of. induction (zone_records zone) as [| record rest IH];
    [reflexivity | exact IH].
Qed.

(** One turn of the loop probes its zone once; it keeps the count or adds
    one to it, or it raises on a creation that got no reply. *)
Lemma create_step_shape (zone : ZoneSpec) (n : Z) (s : Server) :
  forall o s' t,
    create_step respond args headers zone n s = (o, s', t) ->
    probes t = [zone_probe args headers zone] /\
    match o with
    | Return m => (n <= m <= n + 1)%Z
    | Raise e =>
        exists w calls,
          e = RequestException w /\
          http_calls t = calls ++ [(zone_creation args headers zone, NoReply w)]
    end.
Proof.
  intros o s' t Hstep.
  destruct (failed_reply (fst (respond s (zone_probe args headers zone)))) eqn:Hp.
  - destruct (fst (respond (snd (respond s (zone_probe args headers zone)))
                     (zone_creation args headers zone))) as [c | w] eqn:Hc.
    + destruct (Z.eq_dec c 201) as [-> | Hne].
      * destruct (create_step_created zone n s Hp Hc) as (s1 & t1 & Hrun & Hreq).
        rewrite Hrun in Hstep. injection Hstep as <- <- <-.
        unfold probes. rewrite Hreq. cbn. rewrite probes_upserts.
        split; [reflexivity | lia].
      * destruct (create_step_refused zone n c s Hp Hc Hne) as (t1 & Hrun & Hcalls & _).
        rewrite Hrun in Hstep. injection Hstep as <- <- <-.
        unfold probes, requests_of. rewrite Hcalls. cbn.
        split; [reflexivity | lia].
    + destruct (create_step_unanswered zone n w s Hp Hc) as (t1 & Hrun & Hcalls & _).
      rewrite Hrun in Hstep. injection Hstep as <- <- <-.
      unfold probes, requests_of. rewrite Hcalls. cbn.
      split; [reflexivity |].
      exists w. eexists [_]. split; reflexivity.
  - destruct (create_step_found zone n s Hp) as (s1 & t1 & Hrun & Hreq).
    rewrite Hrun in Hstep. injection Hstep as <- <- <-.
    unfold probes. rewrite Hreq. cbn. rewrite probes_upserts.
    split; [reflexivity | lia].
Qed.

Lemma create_loop_shape (zones : list ZoneSpec) :
  forall n s o s' t,
    for_fold zones (create_step respond args headers) n s = (o, s', t) ->
    match o with
    | Return m =>
        probes t = map (zone_probe args headers) zones /\
        (n <= m <= n + len zones)%Z
    | Raise e =>
        exists before zone after w calls,
          zones = before ++ zone :: after /\
          e = RequestException w /\
          probes t = map (zone_probe args headers) (before ++ [zone]) /\
          http_calls t = calls ++ [(zone_creation args headers zone, NoReply w)]
    end.
Proof.
  induction zones as [| zone rest IH]; intros n s o s' t; cbn [for_fold].
  - unfold ret. intros H; injection H as <- <- <-.
    split; [reflexivity | unfold len; cbn; lia].
  - unfold bind.
    destruct (create_step respond args headers zone n s) as [[[m | e] s1] t1] eqn:Hstep;
      apply create_step_shape in Hstep; destruct Hstep as [Hp1 Hs1].
    + destruct (for_fold rest _ m s1) as [[o2 s2] t2] eqn:Hrest.
      apply IH in Hrest. intros H; injection H as <- <- <-.
      destruct o2 as [m2 | e2].
      * destruct Hrest as [Hp2 Hm2].
        rewrite probes_app, Hp1, Hp2. split; [reflexivity |].
        unfold len in *. cbn [length]. lia.
      * destruct Hrest as (before & z & after & w & calls & -> & -> & Hp2 & Hcalls).
        exists (zone :: before), z, after, w, (http_calls t1 ++ calls).
        split; [reflexivity |]. split; [reflexivity |].
        rewrite probes_app, Hp1, Hp2, http_calls_app, Hcalls, app_assoc.
        split; reflexivity.
    + intros H; injection H as <- <- <-.
      destruct Hs1 as (w & calls & -> & Hcalls).
      exists [], zone, rest, w, calls. repeat split; assumption.
Qed.

End CreateRuns.

(** ** The create path, run by run *)

Section CreateScenarios.

Variable Server : Type.
Variable respond : Server -> request -> reply * Server.

Lemma main_create_success (args : Args) (data : Config) (s s1 : Server)
    (t1 : list event) :
  operation args = "create" ->
  validate_data data = Return tt ->
  create_loop respond args [("X-API-Key", key args)] data s = (Return 0%Z, s1, t1) ->
  main respond args (Some data) s
  = (Return tt, s1,
     t1 ++ [Log INFO "Create operation successful";
            Stdout "Create operation successful"]).
Proof.
  intros Hop Hvalid Hloop. rewrite (main_create_run _ respond args data s Hop Hvalid).
  unfold create, bind. rewrite Hloop. cbn. rewrite app_nil_r. reflexivity.
Qed.

Lemma main_create_raise (args : Args) (data : Config) (s s1 : Server)
    (t1 : list event) (e : exn) :
  operation args = "create" ->
  validate_data data = Return tt ->
  create_loop respond args [("X-API-Key", key args)] data s = (Raise e, s1, t1) ->
  main respond args (Some data) s
  = (Return tt, s1,
     t1 ++ [Log ERROR "Create operation failed";
            Stdout "Create operation failed"]).
Proof.
  intros Hop Hvalid Hloop. rewrite (main_create_run _ respond args data s Hop Hvalid).
  unfold create, bind. rewrite Hloop. reflexivity.
Qed.

(** X8: when the loop of [create] runs to its end it has probed every zone
    of the document exactly once, in order, and the failure count it ends
    with lies between 0 and the number of zones. *)
Theorem create_probes_each_zone_once
    (args : Args) (headers : Headers) (data : Config) (s : Server) :
  forall err_count s' t,
    create_loop respond args headers data s = (Return err_count, s', t) ->
    probes t = map (zone_probe args headers) (read_zones data) /\
    (0 <= err_count <= len (read_zones data))%Z.
Proof.
  intros n s' t Hloop.
  apply (create_loop_shape _ respond args headers) in Hloop.
  destruct Hloop as [Hp Hn]. split; [exact Hp | lia].
Qed.

(** X9: the loop of [create] raises only on a zone creation that got no
    reply.  It stops there: that POST is the last call of the run, the zone
    and those before it were probed, and the zones after it are neither
    probed nor created, nor are their records sent. *)
Theorem create_abort_leaves_later_zones_untouched
    (args : Args) (headers : Headers) (data : Config) (s : Server) :
  forall e s' t,
    create_loop respond args headers data s = (Raise e, s', t) ->
    exists before zone after w calls,
      read_zones data = before ++ zone :: after /\
      e = RequestException w /\
      probes t = map (zone_probe args headers) (before ++ [zone]) /\
      http_calls t = calls ++ [(zone_creation args headers zone, NoReply w)].
Proof.
  intros e s' t Hloop.
  exact (create_loop_shape _ respond args headers _ _ _ _ _ _ Hloop).
Qed.

(** X10: against a server on which every probe finds its zone, a run in
    create mode creates nothing: it sends, zone by zone, the probe and then
    the upsert of every record, and reports success. *)
Theorem create_rerun_sends_no_creation
    (args : Args) (data : Config) (s : Server) :
  probes_succeed respond ->
  operation args = "create" ->
  validate_data data = Return tt ->
  exists s' t,
    main respond args (Some data) s = (Return tt, s', t) /\
    requests_of t = rerun_requests args [("X-API-Key", key args)] (read_zones data) /\
    filter (is_method POST) (requests_of t) = [] /\
    printed t = ["Create operation successful"].
Proof.
  intros Hget Hop Hvalid.
  destruct (create_loop_found _ respond args [("X-API-Key", key args)]
              (read_zones data) Hget 0%Z s) as (s' & t & Hloop & Hreq).
  destruct (for_fold_create_step _ respond args _ _ _ _ _ _ _ Hloop) as [Hp _].
  rewrite (main_create_success args data s s' t Hop Hvalid Hloop).
  eexists; eexists. split; [reflexivity |].
  rewrite requests_of_app, printed_app, Hreq, Hp. cbn. rewrite app_nil_r.
  split; [reflexivity |]. split; [| reflexivity].
  unfold rerun_requests. clear.
  induction (read_zones data) as [| zone rest IH]; [reflexivity |].
  cbn [flat_map]. rewrite filter_app, IH, app_nil_r. cbn.
  unfold upserts_of. induction (zone_records zone) as [| record more IHr];
    [reflexivity | exact IHr].
Qed.

(** X11: against a server on which no probe finds its zone and every
    creation is answered 201, a run in create mode sends, zone by zone, the
    probe, the creation and then the upsert of every record, and reports
    success. *)
Theorem create_on_fresh_server
    (args : Args) (data : Config) (s : Server) :
  probes_fail respond ->
  creations_succeed respond ->
  operation args = "create" ->
  validate_data data = Return tt ->
  exists s' t,
    main respond args (Some data) s = (Return tt, s', t) /\
    requests_of t = fresh_requests args [("X-API-Key", key args)] (read_zones data) /\
    printed t = ["Create operation successful"].
Proof.
  intros Hget Hpost Hop Hvalid.
  destruct (create_loop_fresh _ respond args [("X-API-Key", key args)]
              (read_zones data) Hget Hpost 0%Z s) as (s' & t & Hloop & Hreq).
  destruct (for_fold_create_step _ respond args _ _ _ _ _ _ _ Hloop) as [Hp _].
  rewrite (main_create_success args data s s' t Hop Hvalid Hloop).
  eexists; eexists. split; [reflexivity |].
  rewrite requests_of_app, printed_app, Hreq, Hp. cbn. rewrite app_nil_r.
  split; reflexivity.
Qed.

(** X12: against a server that never replies, a run in create mode on a
    document with at least one zone sends two requests, the probe and the
    creation of the first zone, logs and prints "Create operation failed",
    and does nothing for the other zones. *)
Theorem create_on_unreachable_server
    (args : Args) (zone : ZoneSpec) (rest : list ZoneSpec) (s : Server) :
  never_replies respond ->
  operation args = "create" ->
  validate_data (mkConfig (ZonesList (zone :: rest))) = Return tt ->
  exists s' t,
    main respond args (Some (mkConfig (ZonesList (zone :: rest)))) s
      = (Return tt, s', t) /\
    requests_of t = [zone_probe args [("X-API-Key", key args)] zone;
                     zone_creation args [("X-API-Key", key args)] zone] /\
    logged_errors t = [inl "Create operation failed"] /\
    printed t = ["Create operation failed"].
Proof.
  intros Hdown Hop Hvalid.
  set (headers := [("X-API-Key", key args)]).
  destruct (Hdown s (zone_probe args headers zone)) as [w1 Hw1].
  destruct (Hdown (snd (respond s (zone_probe args headers zone)))
                  (zone_creation args headers zone)) as [w2 Hw2].
  destruct (create_step_unanswered _ respond args headers zone 0%Z w2 s)
    as (t1 & Hstep & Hcalls & Hl & Hp); [rewrite Hw1; reflexivity | exact Hw2 |].
  assert (Hloop : create_loop respond args headers
                    (mkConfig (ZonesList (zone :: rest))) s
                  = (Raise (RequestException w2),
                     snd (respond (snd (respond s (zone_probe args headers zone)))
                                  (zone_creation args headers zone)), t1)).
  { unfold create_loop, read_zones. cbn [cfg_zones for_fold]. unfold bind.
    rewrite Hstep. reflexivity. }
  rewrite (main_create_raise args _ s _ t1 _ Hop Hvalid Hloop).
  eexists; eexists. split; [reflexivity |].
  rewrite requests_of_app, logged_errors_app, printed_app, Hl, Hp.
  unfold requests_of. rewrite Hcalls. repeat split; reflexivity.
Qed.

(** X13: a zone that is not found and whose creation is answered with a
    status other than 201 is isolated: none of its records is sent, the skip
    is logged as an error, the failure count grows by one and the loop goes
    on with the zones that follow. *)
Theorem refused_zone_is_skipped_and_counted
    (args : Args) (headers : Headers) (zone : ZoneSpec) (rest : list ZoneSpec)
    (err_count c : Z) (s : Server) :
  failed_reply (fst (respond s (zone_probe args headers zone))) = true ->
  fst (respond (snd (respond s (zone_probe args headers zone)))
               (zone_creation args headers zone)) = Status c ->
  c <> 201%Z ->
  exists s1 t1,
    create_step respond args headers zone err_count s
      = (Return (err_count + 1)%Z, s1, t1) /\
    requests_of t1 = [zone_probe args headers zone;
                      zone_creation args headers zone] /\
    logged_errors t1
      = [inl ("Zone " ++ zone_name zone
                ++ " Creation failed. Skipping record creation")%string] /\
    for_fold (zone :: rest) (create_step respond args headers) err_count s =
    match for_fold rest (create_step respond args headers) (err_count + 1)%Z s1 with
    | (o, s2, t2) => (o, s2, t1 ++ t2)
    end.
Proof.
  intros Hmissing Hrefused Hc.
  destruct (create_step_refused _ respond args headers zone err_count c s
              Hmissing Hrefused Hc) as (t1 & Hstep & Hcalls & Hlog).
  eexists; exists t1. split; [exact Hstep |].
  split; [unfold requests_of; rewrite Hcalls; reflexivity |].
  split; [exact Hlog |].
  cbn [for_fold]. unfold bind at 1. rewrite Hstep. reflexivity.
Qed.

End CreateScenarios.

(** ** Validation and the payloads; documents without zones *)

(** X14: validation stops at the first invalid zone of the list and raises
    what that zone raises: the nameserver message when it is a "MASTER"
    zone, the master message when it is a "SLAVE" zone.  The zones after it
    play no part. *)
Theorem validate_reports_first_invalid_zone
    (before after : list ZoneSpec) (zone : ZoneSpec) :
  Forall (fun z => ~ invalid_zone z) before ->
  invalid_zone zone ->
  validate_data (mkConfig (ZonesList (before ++ zone :: after)))
  = Raise (Exception
             (if String.eqb (zone_kind zone) "MASTER"
              then "A nameserver is required to create a MASTER zone"
              else "A master is required to create SLAVE zone")).
Proof.
  intros Hbefore Hzone. unfold validate_data, read_zones. cbn [cfg_zones].
  rewrite validate_zones_app.
  destruct (validate_zones before) as [[] | e] eqn:Hb.
  - cbn [validate_zones].
    assert (Hz : validate_zone zone
                 = Raise (Exception
                            (if String.eqb (zone_kind zone) "MASTER"
                             then "A nameserver is required to create a MASTER zone"
                             else "A master is required to create SLAVE zone"))).
    { unfold validate_zone.
      destruct Hzone as [[Hk Hl] | [Hk Hl]]; rewrite Hk; cbn [String.eqb];
        apply Z.ltb_lt in Hl; rewrite Hl; reflexivity. }
    rewrite Hz. reflexivity.
  - exfalso.
    assert (Hex : Exists invalid_zone before).
    { apply validate_zones_raises. exists e. exact Hb. }
    apply Exists_exists in Hex. destruct Hex as (z & Hin & Hbad).
    rewrite Forall_forall in Hbefore. exact (Hbefore z Hin Hbad).
Qed.

(** X15: once validation has passed, the creation payload of every "MASTER"
    zone of the document names at least one nameserver and that of every
    "SLAVE" zone at least one master. *)
Theorem validated_payload_names_a_server (data : Config) (zone : ZoneSpec) :
  validate_data data = Return tt ->
  In zone (read_zones data) ->
  (zone_kind zone = "MASTER" ->
   exists ns more,
     json_get "nameservers" (zone_payload zone) = Some (JList (JStr ns :: more))) /\
  (zone_kind zone = "SLAVE" ->
   exists m more,
     json_get "masters" (zone_payload zone) = Some (JList (JStr m :: more))).
Proof.
  intros Hvalid Hin.
  assert (Hok : ~ invalid_zone zone).
  { intros Hbad.
    assert (Hex : Exists invalid_zone (read_zones data)).
    { apply Exists_exists. exists zone. split; assumption. }
    apply validate_zones_raises in Hex. destruct Hex as [e He].
    unfold validate_data in Hvalid. rewrite Hvalid in He. discriminate He. }
  unfold invalid_zone, len in Hok. unfold zone_payload.
  split; intros Hk; rewrite Hk; cbn.
  - destruct (zone_nameservers zone) as [| ns more] eqn:Hns.
    + exfalso. apply Hok. left. split; [exact Hk | cbn; lia].
    + exists ns, (map JStr more). reflexivity.
  - destruct (zone_masters zone) as [| m more] eqn:Hms.
    + exfalso. apply Hok. right. split; [exact Hk | cbn; lia].
    + exists m, (map JStr more). reflexivity.
Qed.

Section NoZones.

Variable Server : Type.
Variable respond : Server -> request -> reply * Server.

(** X16: an empty configuration file makes [main] raise "No config settings
    loaded" before anything else happens.  A document whose zones are
    absent, null or an empty list is a run without any HTTP call that
    reports success, in create mode and in delete mode. *)
Theorem main_without_zones (args : Args) (s : Server) :
  main respond args None s
    = (Raise (Exception "No config settings loaded"), s, []) /\
  (forall data,
      read_zones data = [] ->
      (operation args = "create" ->
       main respond args (Some data) s
       = (Return tt, s, [Log INFO "Create operation successful";
                         Stdout "Create operation successful"])) /\
      (operation args = "delete" ->
       main respond args (Some data) s
       = (Return tt, s, [Log INFO "Delete operation successful";
                         Stdout "Delete operation successful"]))).
Proof.
  split; [reflexivity |].
  intros data Hzones. split; intros Hop; unfold main, validate_data, create,
    create_loop, delete; rewrite Hop, Hzones; reflexivity.
Qed.

End NoZones.

(** ** Logging setup *)

(** X17: [setup_logging] picks WARNING when quiet is set, else DEBUG when
    verbose is set, else INFO, and the logger carries the name of the level
    it returns.  The logger writes to the rotating log file exactly when a
    file is given and can be opened, and otherwise to the stream; it uses
    the short format exactly when it writes to the stream at a level other
    than DEBUG; and something goes to stderr exactly when a file was given
    and could not be opened, a traceback exactly at DEBUG. *)
Theorem setup_logging_outcome (opens : string -> bool) (args : LogOptions) :
  let lg := fst (setup_logging opens args) in
  let lvl := snd (setup_logging opens args) in
  logger_level lg = getLevelName lvl /\
  (lvl = (if quiet args then 30 else if verbose args then 10 else 20)%Z) /\
  (logger_level lg = "DEBUG" <-> quiet args = false /\ verbose args = true) /\
  (logger_handler lg <> StreamHandler <->
   exists f, logfile args = Some f /\ opens f = true /\
             logger_handler lg = RotatingFileHandler f 5242880 5) /\
  (logger_format lg = short_format <->
   logger_handler lg = StreamHandler /\ logger_level lg <> "DEBUG") /\
  (logger_format lg = short_format \/ logger_format lg = long_format) /\
  (logger_stderr lg <> None <->
   exists f, logfile args = Some f /\ opens f = false) /\
  (logger_stderr lg = Some Traceback <->
   logger_stderr lg <> None /\ logger_level lg = "DEBUG").
Proof.
  cbv zeta. unfold setup_logging, create_logger.
  destruct args as [q v [f |]]; cbn [quiet verbose logfile fst snd];
    destruct q, v; cbn; try destruct (opens f) eqn:Hf; cbn;
    repeat split;
    try discriminate; try reflexivity; try congruence;
    try (intros [_ H]; discriminate H);
    try (intros [H _]; discriminate H);
    try (intros _; exists f; repeat split; assumption);
    try (intros [f' [H1 [H2 _]]]; congruence);
    try (intros [f' [H1 H2]]; congruence);
    try (intros H; exfalso; apply H; reflexivity);
    try (intros [H _]; exfalso; apply H; reflexivity);
    try (intros [_ H]; exfalso; apply H; reflexivity);
    try (intros _; split; [reflexivity | discriminate]);
    try (intros _; split; [discriminate | reflexivity]);
    try (left; reflexivity); try (right; reflexivity).
Qed.

(** ** More concrete runs *)

Lemma create_run_sends_only_create_targets_witness :
  Forall (fun rq =>
            create_target (args0 "create") [("X-API-Key", key (args0 "create"))]
                          (read_zones (cfg [zone_a; zone_b])) rq /\
            req_method rq <> DELETE /\
            (req_url rq = zones_url (args0 "create") \/
             exists zone, In zone (read_zones (cfg [zone_a; zone_b])) /\
                          req_url rq = zone_url (args0 "create") zone))
         (requests_of (snd (main play (args0 "create") (Some (cfg [zone_a; zone_b]))
                                 first_zone_refused))).
Proof.
  apply (create_run_sends_only_create_targets (list reply) play (args0 "create")
           (cfg [zone_a; zone_b]) first_zone_refused).
  reflexivity.
Defined.

Lemma delete_run_sends_only_delete_targets_witness :
  Forall (fun rq =>
            delete_target (args0 "delete") [("X-API-Key", key (args0 "delete"))]
                          (read_zones (cfg [zone_a; zone_b])) rq /\
            req_method rq <> POST /\
            exists zone, In zone (read_zones (cfg [zone_a; zone_b])) /\
                         req_url rq = zone_url (args0 "delete") zone)
         (requests_of (snd (main refuses_deletions (args0 "delete")
                                 (Some (cfg [zone_a; zone_b])) tt))).
Proof.
  apply (delete_run_sends_only_delete_targets unit refuses_deletions (args0 "delete")
           (cfg [zone_a; zone_b]) tt).
  reflexivity.
Defined.

Lemma delete_probes_per_record_and_zone_witness :
  exists s' t,
    main refuses_deletions (args0 "delete") (Some (cfg [zone_a; zone_b])) tt
      = (Return tt, s', t) /\
    probes t = delete_probes (args0 "delete") [("X-API-Key", key (args0 "delete"))]
                             (read_zones (cfg [zone_a; zone_b])) /\
    length (probes t)
    = list_sum (map (fun zone => S (length (zone_records zone)))
                    (read_zones (cfg [zone_a; zone_b]))).
Proof.
  apply (delete_probes_per_record_and_zone unit refuses_deletions (args0 "delete")
           (cfg [zone_a; zone_b]) tt); reflexivity.
Defined.

Lemma delete_with_failing_probes_reports_success_witness :
  exists s' t,
    main unreachable (args0 "delete") (Some (cfg [zone_a; zone_b])) tt
      = (Return tt, s', t) /\
    requests_of t
    = delete_probes (args0 "delete") [("X-API-Key", key (args0 "delete"))]
                    (read_zones (cfg [zone_a; zone_b])) /\
    logged_errors t = [] /\
    printed t = ["Delete operation successful"].
Proof.
  apply (delete_with_failing_probes_reports_success unit unreachable
           (args0 "delete") (cfg [zone_a; zone_b]) tt).
  - intros s rq _. reflexivity.
  - reflexivity.
  - reflexivity.
Defined.

Lemma create_probes_each_zone_once_witness :
  probes (snd (create_loop play (args0 "create") headers0 (cfg [zone_a; zone_b])
                           first_zone_refused))
  = map (zone_probe (args0 "create") headers0) (read_zones (cfg [zone_a; zone_b])) /\
  (0 <= 1 <= len (read_zones (cfg [zone_a; zone_b])))%Z.
Proof.
  apply (create_probes_each_zone_once (list reply) play (args0 "create") headers0
           (cfg [zone_a; zone_b]) first_zone_refused 1%Z []).
  reflexivity.
Defined.

Lemma create_abort_leaves_later_zones_untouched_witness :
  let t := snd (create_loop play (args0 "create") headers0 (cfg [zone_a; zone_b])
                            post_unanswered) in
  exists before zone after w calls,
    read_zones (cfg [zone_a; zone_b]) = before ++ zone :: after /\
    RequestException ConnectionError = RequestException w /\
    probes t = map (zone_probe (args0 "create") headers0) (before ++ [zone]) /\
    http_calls t = calls ++ [(zone_creation (args0 "create") headers0 zone, NoReply w)].
Proof.
  cbv zeta.
  apply (create_abort_leaves_later_zones_untouched (list reply) play
           (args0 "create") headers0 (cfg [zone_a; zone_b]) post_unanswered
           (RequestException ConnectionError)
           [Status 404; Status 201; Status 204; Status 204]).
  reflexivity.
Defined.

Lemma create_rerun_sends_no_creation_witness :
  exists s' t,
    main accepts_all (args0 "create") (Some (cfg [zone_a; zone_b])) tt
      = (Return tt, s', t) /\
    requests_of t
    = rerun_requests (args0 "create") [("X-API-Key", key (args0 "create"))]
                     (read_zones (cfg [zone_a; zone_b])) /\
    filter (is_method POST) (requests_of t) = [] /\
    printed t = ["Create operation successful"].
Proof.
  apply (create_rerun_sends_no_creation unit accepts_all (args0 "create")
           (cfg [zone_a; zone_b]) tt).
  - intros s rq Hget. unfold accepts_all, by_method. rewrite Hget. reflexivity.
  - reflexivity.
  - reflexivity.
Defined.

Lemma create_on_fresh_server_witness :
  exists s' t,
    main fresh_server (args0 "create") (Some (cfg [zone_a; zone_b])) tt
      = (Return tt, s', t) /\
    requests_of t
    = fresh_requests (args0 "create") [("X-API-Key", key (args0 "create"))]
                     (read_zones (cfg [zone_a; zone_b])) /\
    printed t = ["Create operation successful"].
Proof.
  apply (create_on_fresh_server unit fresh_server (args0 "create")
           (cfg [zone_a; zone_b]) tt).
  - intros s rq Hget. unfold fresh_server, by_method. rewrite Hget. reflexivity.
  - intros s rq Hpost. unfold fresh_server, by_method. rewrite Hpost. reflexivity.
  - reflexivity.
  - reflexivity.
Defined.

Lemma create_on_unreachable_server_witness :
  exists s' t,
    main unreachable (args0 "create") (Some (mkConfig (ZonesList [zone_a; zone_b]))) tt
      = (Return tt, s', t) /\
    requests_of t
    = [zone_probe (args0 "create") [("X-API-Key", key (args0 "create"))] zone_a;
       zone_creation (args0 "create") [("X-API-Key", key (args0 "create"))] zone_a] /\
    logged_errors t = [inl "Create operation failed"] /\
    printed t = ["Create operation failed"].
Proof.
  apply (create_on_unreachable_server unit unreachable (args0 "create")
           zone_a [zone_b] tt).
  - intros s rq. exists ConnectionError. reflexivity.
  - reflexivity.
  - reflexivity.
Defined.

Lemma refused_zone_is_skipped_and_counted_witness :
  exists s1 t1,
    create_step play (args0 "create") headers0 zone_a 0%Z first_zone_refused
      = (Return (0 + 1)%Z, s1, t1) /\
    requests_of t1 = [zone_probe (args0 "create") headers0 zone_a;
                      zone_creation (args0 "create") headers0 zone_a] /\
    logged_errors t1
      = [inl ("Zone " ++ zone_name zone_a
                ++ " Creation failed. Skipping record creation")%string] /\
    for_fold (zone_a :: [zone_b]) (create_step play (args0 "create") headers0) 0%Z
             first_zone_refused =
    match for_fold [zone_b] (create_step play (args0 "create") headers0) (0 + 1)%Z s1 with
    | (o, s2, t2) => (o, s2, t1 ++ t2)
    end.
Proof.
  apply (refused_zone_is_skipped_and_counted (list reply) play (args0 "create")
           headers0 zone_a [zone_b] 0%Z 500%Z first_zone_refused).
  - reflexivity.
  - reflexivity.
  - lia.
Defined.

Lemma validate_reports_first_invalid_zone_witness :
  validate_data (mkConfig (ZonesList ([zone_a; zone_b] ++ zone_m :: [zone_c])))
  = Raise (Exception "A nameserver is required to create a MASTER zone").
Proof.
  apply (validate_reports_first_invalid_zone [zone_a; zone_b] [zone_c] zone_m).
  - repeat constructor; intros [[Hk Hl] | [Hk Hl]];
      try discriminate Hk; unfold len in Hl; cbn in Hl; lia.
  - left. split; [reflexivity | unfold len; cbn; lia].
Defined.

Lemma validated_payload_names_a_server_witness :
  (zone_kind zone_b = "MASTER" ->
   exists ns more,
     json_get "nameservers" (zone_payload zone_b) = Some (JList (JStr ns :: more))) /\
  (zone_kind zone_b = "SLAVE" ->
   exists m more,
     json_get "masters" (zone_payload zone_b) = Some (JList (JStr m :: more))).
Proof.
  apply (validated_payload_names_a_server (cfg [zone_a; zone_b; zone_c]) zone_b).
  - reflexivity.
  - right; left; reflexivity.
Defined.

Lemma main_without_zones_witness :
  main play (args0 "create") (Some (mkConfig ZonesNull)) first_zone_refused
  = (Return tt, first_zone_refused,
     [Log INFO "Create operation successful"; Stdout "Create operation successful"]).
Proof.
  destruct (main_without_zones (list reply) play (args0 "create") first_zone_refused)
    as [_ Hdoc].
  destruct (Hdoc (mkConfig ZonesNull) eq_refl) as [Hcreate _].
  apply Hcreate. reflexivity.
Defined.
